(** * azure_management.py: logger factory, resource-group facade, CLI dispatch

    A shallow embedding of [examples/python/azure_management.py].  The
    script's effects (the logging registry, standard output, the calls made
    to the Azure SDK) are threaded through an explicit [World]; Python
    exceptions are the [Raise] results of a state-and-error monad.  The
    process ends with status [n] when [main] ends in [Raise (SystemExit n)],
    which is what [sys.exit(n)] raises. *)

From stdpp Require Import base numbers strings gmap list pretty.

Open Scope string_scope.
Open Scope list_scope.

(** ** Strings *)

(** [str.upper] on ASCII text: a-z go to A-Z and every other ASCII character
    stays.  Python's [str.upper] also maps characters outside ASCII (a
    dotless i to I, a long s to S); here they are left as they are, so a
    statement that depends on the upper-case form of an arbitrary name is
    made for [ascii_only] names, where the two agree. *)
Definition upper_ascii (c : Ascii.ascii) : Ascii.ascii :=
  let n := Ascii.nat_of_ascii c in
  if (97 <=? n)%nat && (n <=? 122)%nat then Ascii.ascii_of_nat (n - 32) else c.

Fixpoint upper (s : string) : string :=
  match s with
  | EmptyString => EmptyString
  | String c r => String (upper_ascii c) (upper r)
  end.


(** ** Exceptions *)

(** The exception classes the script meets.  [KeyboardInterrupt] and
    [SystemExit] derive from [BaseException] only; all the others derive
    from [Exception]. *)
Inductive exn :=
| AzureError (msg : string)
| AttributeError (msg : string)
| ValueError (msg : string)
| TypeError (msg : string)
| OtherException (msg : string)
| KeyboardInterrupt
| SystemExit (code : Z).

(** [isinstance(e, AzureError)] *)
Definition is_AzureError (e : exn) : bool :=
  match e with AzureError _ => true | _ => false end.

(** [isinstance(e, Exception)] *)
Definition is_Exception (e : exn) : bool :=
  match e with KeyboardInterrupt | SystemExit _ => false | _ => true end.

(** [isinstance(e, KeyboardInterrupt)] *)
Definition is_KeyboardInterrupt (e : exn) : bool :=
  match e with KeyboardInterrupt => true | _ => false end.

(** [str(e)], as the f-strings of the handlers format it. *)
Definition exn_str (e : exn) : string :=
  match e with
  | AzureError m | AttributeError m | ValueError m | TypeError m
  | OtherException m => m
  | KeyboardInterrupt => ""
  | SystemExit c => pretty c
  end.

(** ** The world *)

Inductive Stream := Stdout | Stderr.

(** A [logging.StreamHandler]; [h_id] is the identity of the object. *)
Record Handler := mkHandler {
  h_id : nat;
  h_stream : Stream;
  h_formatter : option string
}.

(** A [logging.Logger]: its own level and its handler list. *)
Record Logger := mkLogger {
  lg_level : Z;
  lg_handlers : list Handler
}.

(** A line a handler writes; the [asctime] field of the format is left
    out. *)
Record Line := mkLine {
  ln_name : string;
  ln_levelname : string;
  ln_message : string
}.

Record RawGroup := mkRawGroup {
  rg_name : string;
  rg_location : string;
  rg_tags : option (gmap string string)
}.

(** The [rg_params] dictionary handed to [create_or_update]. *)
Record RgParams := mkRgParams {
  p_location : string;
  p_tags : gmap string string
}.

(** What the run did, in order: logger calls, SDK calls, facade calls. *)
Inductive Event :=
| EvLog (level : Z) (msg : string)
| EvCredential
| EvClient (subscription : string)
| EvCreateOrUpdate (name : string) (params : RgParams)
| EvListGroups
| EvCallCreate (name location : string) (tags : option (gmap string string))
| EvCallList.

Record World := mkWorld {
  w_registry : gmap string Logger;
  w_next_id : nat;
  w_stdout : list Line;
  w_trace : list Event
}.

(** A process that has just started: no logger registered, nothing
    written. *)
Definition initial_world : World :=
  {| w_registry := ∅; w_next_id := 0; w_stdout := []; w_trace := [] |}.

(** ** The monad *)

Inductive result (A : Type) :=
| Ret (a : A)
| Raise (e : exn).
Arguments Ret {A} a.
Arguments Raise {A} e.

Definition M (A : Type) : Type := World → result A * World.

Definition ret {A} (a : A) : M A := λ w, (Ret a, w).

Definition raise {A} (e : exn) : M A := λ w, (Raise e, w).

Definition bind {A B} (m : M A) (k : A → M B) : M B := λ w,
  match m w with
  | (Ret a, w1) => k a w1
  | (Raise e, w1) => (Raise e, w1)
  end.

Declare Scope py_scope.
Delimit Scope py_scope with py.
Notation "'let*' x := m 'in' k" := (bind m (λ x, k))
  (at level 10, x name, m at level 100, k at level 200) : py_scope.
Notation "m ;;; k" := (bind m (λ _, k))
  (at level 100, k at level 200, right associativity) : py_scope.
Open Scope py_scope.

(** [try: body except ...: handler]: [handlers e] is the first clause that
    matches [e], if any; an exception no clause matches goes on. *)
Definition try_except {A} (body : M A) (handlers : exn → option (M A)) : M A :=
  λ w,
  match body w with
  | (Ret a, w1) => (Ret a, w1)
  | (Raise e, w1) =>
      match handlers e with
      | Some h => h w1
      | None => (Raise e, w1)
      end
  end.

(** [sys.exit(code)] *)
Definition sys_exit {A} (code : Z) : M A := raise (SystemExit code).

Definition record_event (ev : Event) (w : World) : World :=
  {| w_registry := w_registry w; w_next_id := w_next_id w;
     w_stdout := w_stdout w; w_trace := w_trace w ++ [ev] |}.

Definition emit (ev : Event) : M unit := λ w, (Ret (), record_event ev w).

(** ** The logging module *)

Definition DEBUG : Z := 10.
Definition INFO : Z := 20.
Definition WARNING : Z := 30.
Definition ERROR : Z := 40.
Definition CRITICAL : Z := 50.
Definition NOTSET : Z := 0.

(** [logging._nameToLevel] *)
Definition nameToLevel (name : string) : option Z :=
  if bool_decide (name = "CRITICAL") then Some CRITICAL
  else if bool_decide (name = "FATAL") then Some CRITICAL
  else if bool_decide (name = "ERROR") then Some ERROR
  else if bool_decide (name = "WARN") then Some WARNING
  else if bool_decide (name = "WARNING") then Some WARNING
  else if bool_decide (name = "INFO") then Some INFO
  else if bool_decide (name = "DEBUG") then Some DEBUG
  else if bool_decide (name = "NOTSET") then Some NOTSET
  else None.

(** [logging.getLevelName] on the levels the script logs at. *)
Definition levelName (level : Z) : string :=
  if bool_decide (level = CRITICAL) then "CRITICAL"
  else if bool_decide (level = ERROR) then "ERROR"
  else if bool_decide (level = WARNING) then "WARNING"
  else if bool_decide (level = INFO) then "INFO"
  else if bool_decide (level = DEBUG) then "DEBUG"
  else if bool_decide (level = NOTSET) then "NOTSET"
  else "Level " +:+ pretty level.

(** The values module attributes can have. *)
Inductive PyValue :=
| PyInt (n : Z)
| PyStr (s : string)
| PyDict.

(** [getattr(logging, name)] for the names [upper] can produce: the module
    attributes whose name has no lower-case letter.  Every other attribute
    of the module has one. *)
Definition logging_getattr (name : string) : M PyValue :=
  match nameToLevel name with
  | Some n => ret (PyInt n)
  | None =>
      if bool_decide (name = "BASIC_FORMAT")
      then ret (PyStr "%(levelname)s:%(name)s:%(message)s")
      else if bool_decide (name = "_STYLES") then ret PyDict
      else raise (AttributeError
                    ("module 'logging' has no attribute '" +:+ name +:+ "'"))
  end.

(** [logging._checkLevel] *)
Definition checkLevel (level : PyValue) : M Z :=
  match level with
  | PyInt n => ret n
  | PyStr s =>
      match nameToLevel s with
      | Some n => ret n
      | None => raise (ValueError ("Unknown level: '" +:+ s +:+ "'"))
      end
  | PyDict => raise (TypeError "Level not an integer or a valid string: {...}")
  end.

Definition new_logger : Logger := {| lg_level := NOTSET; lg_handlers := [] |}.

Definition set_registry (reg : gmap string Logger) (w : World) : World :=
  {| w_registry := reg; w_next_id := w_next_id w;
     w_stdout := w_stdout w; w_trace := w_trace w |}.

(** The logger a reference stands for. *)
Definition the_logger (name : string) (w : World) : Logger :=
  default new_logger (w_registry w !! name).

(** [logging.getLogger(name)]: the logger registered under [name], created
    on first use.  A logger is referred to by its name. *)
Definition getLogger (name : string) : M string := λ w,
  match w_registry w !! name with
  | Some _ => (Ret name, w)
  | None => (Ret name, set_registry (<[name := new_logger]> (w_registry w)) w)
  end.

(** [Logger.setLevel] *)
Definition setLevel (logger : string) (level : PyValue) : M unit :=
  let* n := checkLevel level in
  λ w,
  let lg := the_logger logger w in
  (Ret (), set_registry
             (<[logger := {| lg_level := n; lg_handlers := lg_handlers lg |}]>
                (w_registry w)) w).

(** [logging.StreamHandler(stream)]: a new object. *)
Definition StreamHandler (stream : Stream) : M Handler := λ w,
  (Ret {| h_id := w_next_id w; h_stream := stream; h_formatter := None |},
   {| w_registry := w_registry w; w_next_id := S (w_next_id w);
      w_stdout := w_stdout w; w_trace := w_trace w |}).

(** [Handler.setFormatter], on a handler nothing else refers to yet. *)
Definition setFormatter (h : Handler) (fmt : string) : Handler :=
  {| h_id := h_id h; h_stream := h_stream h; h_formatter := Some fmt |}.

(** [hdlr in self.handlers]: handlers compare by identity. *)
Definition handler_in (h : Handler) (hs : list Handler) : bool :=
  existsb (λ h', Nat.eqb (h_id h') (h_id h)) hs.

(** [Logger.addHandler] *)
Definition addHandler (logger : string) (h : Handler) : M unit := λ w,
  let lg := the_logger logger w in
  if handler_in h (lg_handlers lg) then (Ret (), w)
  else (Ret (), set_registry
                  (<[logger := {| lg_level := lg_level lg;
                                  lg_handlers := lg_handlers lg ++ [h] |}]>
                     (w_registry w)) w).

(** [Logger.getEffectiveLevel]: a logger left at NOTSET takes the root
    logger's level, WARNING. *)
Definition getEffectiveLevel (lg : Logger) : Z :=
  if bool_decide (lg_level lg = NOTSET) then WARNING else lg_level lg.

Definition write_stdout (lines : list Line) (w : World) : World :=
  {| w_registry := w_registry w; w_next_id := w_next_id w;
     w_stdout := w_stdout w ++ lines; w_trace := w_trace w |}.

(** [Logger.log(level, msg)]: when the logger is enabled for [level], each
    of its handlers on standard output writes one line.  The trace records
    the call whether or not a line is written. *)
Definition log (logger : string) (level : Z) (msg : string) : M unit :=
  emit (EvLog level msg) ;;;
  λ w,
  let lg := the_logger logger w in
  if bool_decide (getEffectiveLevel lg ≤ level)%Z then
    (Ret (),
     write_stdout
       (omap (λ h, match h_stream h with
                   | Stdout => Some {| ln_name := logger;
                                       ln_levelname := levelName level;
                                       ln_message := msg |}
                   | Stderr => None
                   end) (lg_handlers lg)) w)
  else (Ret (), w).

Definition logger_info (logger msg : string) : M unit := log logger INFO msg.
Definition logger_error (logger msg : string) : M unit := log logger ERROR msg.

(** ** setup_logging *)

(** [__name__] of the script when it is run. *)
Definition module_name : string := "__main__".

Definition setup_logging (log_level : string) : M string :=
  let* logger := getLogger module_name in
  let* level := logging_getattr (upper log_level) in
  setLevel logger level ;;;
  let* handler := StreamHandler Stdout in
  let formatter := "%(asctime)s - %(name)s - %(levelname)s - %(message)s" in
  let handler := setFormatter handler formatter in
  addHandler logger handler ;;;
  ret logger.

(** ** The Azure SDK *)

(** The behaviour of the SDK objects the script talks to.  [list_groups] is
    the lazy sequence [resource_groups.list()] gives: the groups it yields
    and, when the call or a later page fails, the exception that ends it. *)
Record Provider := mkProvider {
  new_credential : option exn;
  new_client : string → option exn;
  create_or_update : string → RgParams → exn + RawGroup;
  list_groups : list RawGroup * option exn
}.

(** A record of the list [list_resource_groups] returns. *)
Record GroupRecord := mkGroupRecord {
  rec_name : string;
  rec_location : string;
  rec_tags : gmap string string
}.

(** The facade object; its credential and client are the [Provider]'s. *)
Record AzureResourceManager := mkAzureResourceManager {
  arm_subscription_id : string;
  arm_logger : string
}.

(** The [Namespace] [parse_args] returns. *)
Record Args := mkArgs {
  action : string;
  subscription_id : string;
  resource_group : option string;
  location : string;
  environment : string;
  log_level : string
}.

(** [tags or {}] *)
Definition tags_or_empty (tags : option (gmap string string))
  : gmap string string :=
  match tags with
  | Some t => if bool_decide (t = ∅) then ∅ else t
  | None => ∅
  end.

(** The tag dictionary [main] builds for the create action. *)
Definition environment_tags (environment : string) : gmap string string :=
  <["Environment" := environment]>
    (<["ManagedBy" := "DevOps-Automation"]>
       (<["Project" := "DevOps-Tools"]> ∅)).

Section WithProvider.

Context (P : Provider).

(** [DefaultAzureCredential()] *)
Definition DefaultAzureCredential : M unit :=
  emit EvCredential ;;;
  match new_credential P with
  | Some e => raise e
  | None => ret ()
  end.

(** [ResourceManagementClient(credential, subscription_id)] *)
Definition ResourceManagementClient (subscription : string) : M unit :=
  emit (EvClient subscription) ;;;
  match new_client P subscription with
  | Some e => raise e
  | None => ret ()
  end.

(** [resource_client.resource_groups.create_or_update(name, params)] *)
Definition resource_groups_create_or_update (name : string)
    (params : RgParams) : M RawGroup :=
  emit (EvCreateOrUpdate name params) ;;;
  match create_or_update P name params with
  | inl e => raise e
  | inr r => ret r
  end.

(** [AzureResourceManager.__init__] *)
Definition AzureResourceManager_init (subscription : string)
    (logger : string) : M AzureResourceManager :=
  DefaultAzureCredential ;;;
  ResourceManagementClient subscription ;;;
  ret {| arm_subscription_id := subscription; arm_logger := logger |}.

Definition create_resource_group (self : AzureResourceManager)
    (resource_group_name location : string)
    (tags : option (gmap string string)) : M bool :=
  emit (EvCallCreate resource_group_name location tags) ;;;
  try_except
    (logger_info (arm_logger self)
       ("Creating resource group: " +:+ resource_group_name) ;;;
     let rg_params :=
       {| p_location := location; p_tags := tags_or_empty tags |} in
     let* result :=
       resource_groups_create_or_update resource_group_name rg_params in
     logger_info (arm_logger self)
       ("Resource group created successfully: " +:+ rg_name result) ;;;
     ret true)
    (λ e,
       if is_AzureError e then
         Some (logger_error (arm_logger self)
                 ("Azure error creating resource group: " +:+ exn_str e) ;;;
               ret false)
       else if is_Exception e then
         Some (logger_error (arm_logger self)
                 ("Unexpected error: " +:+ exn_str e) ;;;
               ret false)
       else None).

(** The [for rg in ...list()] loop: one record appended per group yielded,
    then the end of the sequence or the exception that cuts it short. *)
Fixpoint collect_groups (items : list RawGroup) (stop : option exn)
    (resource_groups : list GroupRecord) : M (list GroupRecord) :=
  match items with
  | rg :: rest =>
      collect_groups rest stop
        (resource_groups ++
           [{| rec_name := rg_name rg; rec_location := rg_location rg;
               rec_tags := tags_or_empty (rg_tags rg) |}])
  | [] =>
      match stop with
      | Some e => raise e
      | None => ret resource_groups
      end
  end.

Definition list_resource_groups (self : AzureResourceManager)
  : M (option (list GroupRecord)) :=
  emit EvCallList ;;;
  try_except
    (logger_info (arm_logger self) "Listing resource groups" ;;;
     emit EvListGroups ;;;
     let* resource_groups :=
       collect_groups (list_groups P).1 (list_groups P).2 [] in
     logger_info (arm_logger self)
       ("Found " +:+ pretty (length resource_groups) +:+ " resource groups") ;;;
     ret (Some resource_groups))
    (λ e,
       if is_AzureError e then
         Some (logger_error (arm_logger self)
                 ("Azure error listing resource groups: " +:+ exn_str e) ;;;
               ret None)
       else if is_Exception e then
         Some (logger_error (arm_logger self)
                 ("Unexpected error: " +:+ exn_str e) ;;;
               ret None)
       else None).

(** The [for rg in resource_groups] loop of [main]. *)
Fixpoint log_groups (logger : string) (resource_groups : list GroupRecord)
  : M unit :=
  match resource_groups with
  | rg :: rest =>
      logger_info logger
        ("  - " +:+ rec_name rg +:+ " (" +:+ rec_location rg +:+ ")") ;;;
      log_groups logger rest
  | [] => ret ()
  end.

(** The body of the [try] block of [main]. *)
Definition main_try (args : Args) (logger : string) : M unit :=
  let* arm := AzureResourceManager_init (subscription_id args) logger in
  if bool_decide (action args = "create") then
    let* name :=
      match resource_group args with
      | Some name =>
          if bool_decide (name = "") then
            logger_error logger
              "Resource group name is required for create action" ;;;
            sys_exit 1
          else ret name
      | None =>
          logger_error logger
            "Resource group name is required for create action" ;;;
          sys_exit 1
      end in
    let tags := environment_tags (environment args) in
    let* success :=
      create_resource_group arm name (location args) (Some tags) in
    if success then
      logger_info logger "Resource group creation completed successfully" ;;;
      sys_exit 0
    else
      logger_error logger "Resource group creation failed" ;;;
      sys_exit 1
  else if bool_decide (action args = "list") then
    let* resource_groups := list_resource_groups arm in
    match resource_groups with
    | Some groups =>
        logger_info logger "Resource Groups:" ;;;
        log_groups logger groups ;;;
        sys_exit 0
    | None =>
        logger_error logger "Failed to list resource groups" ;;;
        sys_exit 1
    end
  else ret ().

(** [main], from the parsed arguments on. *)
Definition main (args : Args) : M unit :=
  let* logger := setup_logging (log_level args) in
  try_except (main_try args logger)
    (λ e,
       if is_KeyboardInterrupt e then
         Some (logger_info logger "Operation cancelled by user" ;;;
               sys_exit 130)
       else if is_Exception e then
         Some (logger_error logger ("Unexpected error: " +:+ exn_str e) ;;;
               sys_exit 1)
       else None).

End WithProvider.

(** ** The command line *)

(** The options of the parser [main] builds. *)
Inductive Flag :=
| ActionFlag
| SubscriptionIdFlag
| ResourceGroupFlag
| LocationFlag
| EnvironmentFlag
| LogLevelFlag.

(** The [choices] an option was added with, if any. *)
Definition choices (flag : Flag) : option (list string) :=
  match flag with
  | ActionFlag => Some ["create"; "list"]
  | EnvironmentFlag => Some ["dev"; "staging"; "prod"]
  | LogLevelFlag => Some ["DEBUG"; "INFO"; "WARNING"; "ERROR"]
  | SubscriptionIdFlag | ResourceGroupFlag | LocationFlag => None
  end.

(** The namespace while the command line is read: the defaults, then what
    the options seen so far stored. *)
Record Namespace := mkNamespace {
  ns_action : option string;
  ns_subscription_id : option string;
  ns_resource_group : option string;
  ns_location : string;
  ns_environment : string;
  ns_log_level : string
}.

Definition default_namespace : Namespace :=
  {| ns_action := None; ns_subscription_id := None;
     ns_resource_group := None; ns_location := "West Europe";
     ns_environment := "dev"; ns_log_level := "INFO" |}.

(** The store action of an option. *)
Definition store (flag : Flag) (value : string) (ns : Namespace) : Namespace :=
  match flag with
  | ActionFlag =>
      {| ns_action := Some value; ns_subscription_id := ns_subscription_id ns;
         ns_resource_group := ns_resource_group ns;
         ns_location := ns_location ns; ns_environment := ns_environment ns;
         ns_log_level := ns_log_level ns |}
  | SubscriptionIdFlag =>
      {| ns_action := ns_action ns; ns_subscription_id := Some value;
         ns_resource_group := ns_resource_group ns;
         ns_location := ns_location ns; ns_environment := ns_environment ns;
         ns_log_level := ns_log_level ns |}
  | ResourceGroupFlag =>
      {| ns_action := ns_action ns;
         ns_subscription_id := ns_subscription_id ns;
         ns_resource_group := Some value;
         ns_location := ns_location ns; ns_environment := ns_environment ns;
         ns_log_level := ns_log_level ns |}
  | LocationFlag =>
      {| ns_action := ns_action ns;
         ns_subscription_id := ns_subscription_id ns;
         ns_resource_group := ns_resource_group ns;
         ns_location := value; ns_environment := ns_environment ns;
         ns_log_level := ns_log_level ns |}
  | EnvironmentFlag =>
      {| ns_action := ns_action ns;
         ns_subscription_id := ns_subscription_id ns;
         ns_resource_group := ns_resource_group ns;
         ns_location := ns_location ns; ns_environment := value;
         ns_log_level := ns_log_level ns |}
  | LogLevelFlag =>
      {| ns_action := ns_action ns;
         ns_subscription_id := ns_subscription_id ns;
         ns_resource_group := ns_resource_group ns;
         ns_location := ns_location ns; ns_environment := ns_environment ns;
         ns_log_level := value |}
  end.

(** [ArgumentParser.error]: a usage message on standard error, then
    [sys.exit(2)]. *)
Definition parser_error {A} : M A := sys_exit 2.

(** The options of the command line with their values, in the order given,
    as argparse takes them: a value outside the option's [choices] is an
    error at once; otherwise it is stored, a later occurrence of an option
    replacing an earlier one. *)
Fixpoint consume_options (options : list (Flag * string)) (ns : Namespace)
  : M Namespace :=
  match options with
  | [] => ret ns
  | (flag, value) :: rest =>
      match choices flag with
      | Some allowed =>
          if bool_decide (value ∈ allowed)
          then consume_options rest (store flag value ns)
          else parser_error
      | None => consume_options rest (store flag value ns)
      end
  end.

(** [parser.parse_args()], from the options and values of the command line
    on (how an option is spelled on the command line, and [-h], are left to
    argparse): the options are taken in turn, then the two required ones
    must have been given. *)
Definition parse_args (options : list (Flag * string)) : M Args :=
  let* ns := consume_options options default_namespace in
  match ns_action ns, ns_subscription_id ns with
  | Some action, Some subscription =>
      ret {| action := action; subscription_id := subscription;
             resource_group := ns_resource_group ns;
             location := ns_location ns;
             environment := ns_environment ns;
             log_level := ns_log_level ns |}
  | _, _ => parser_error
  end.

(** [main()] as the script runs it: the command line is parsed, then the
    rest of [main] runs on the namespace. *)
Definition main_cli (P : Provider) (options : list (Flag * string)) : M unit :=
  let* args := parse_args options in
  main P args.


(** ** Running several calls of the logger factory in one process *)

Fixpoint setup_many (levels : list string) : M unit :=
  match levels with
  | [] => ret ()
  | level :: rest => setup_logging level ;;; setup_many rest
  end.

(** ** Predicates the statements use *)

(** The errors the severity lookup and [setLevel] signal. *)
Definition is_configuration_error (e : exn) : bool :=
  match e with
  | AttributeError _ | ValueError _ | TypeError _ => true
  | _ => false
  end.

Definition is_call_create (ev : Event) : bool :=
  match ev with EvCallCreate _ _ _ => true | _ => false end.

(** The handlers of the script's logger. *)
Definition handlers_of (w : World) : list Handler :=
  lg_handlers (the_logger module_name w).

(** Handler identities already given out lie below the allocation
    counter. *)
Definition ids_allocated (w : World) : Prop :=
  Forall (λ h, h_id h < w_next_id w) (handlers_of w).

(** The world a logger call leaves. *)
Definition logged (logger : string) (level : Z) (msg : string) (w : World)
  : World := (log logger level msg w).2.
Arguments logged : simpl never.

(** The handler list a call of the factory leaves, from the one it found. *)
Definition handlers_after (w : World) : list Handler :=
  let h := {| h_id := w_next_id w; h_stream := Stdout;
              h_formatter :=
                Some "%(asctime)s - %(name)s - %(levelname)s - %(message)s" |} in
  if handler_in h (handlers_of w) then handlers_of w
  else handlers_of w ++ [h].

(** The record of a group: its name, its location, and its tags or the
    empty mapping when it has none. *)
Definition record_of (g : RawGroup) : GroupRecord :=
  {| rec_name := rg_name g; rec_location := rg_location g;
     rec_tags := match rg_tags g with Some t => t | None => ∅ end |}.

(** [e] is raised by one of the phases the [try] block of [main] runs for
    [args]: building the credential, building the client, the create call,
    or the listing. *)
Definition raises_in_phase (P : Provider) (args : Args) (e : exn) : Prop :=
  new_credential P = Some e ∨
  (new_credential P = None ∧
   new_client P (subscription_id args) = Some e) ∨
  (new_credential P = None ∧
   new_client P (subscription_id args) = None ∧
   ((action args = "create" ∧
     ∃ name, resource_group args = Some name ∧ name ≠ "" ∧
       create_or_update P name
         {| p_location := location args;
            p_tags := environment_tags (environment args) |} = inl e) ∨
    (action args = "list" ∧ (list_groups P).2 = Some e))).

(** A level name the logger factory can look up. *)
Definition valid_level (s : string) : Prop :=
  is_Some (nameToLevel (upper s)).

(** ** Sample collaborators and invocations *)

Definition sdk_ok : Provider :=
  {| new_credential := None;
     new_client := λ _, None;
     create_or_update := λ name params,
       inr {| rg_name := name; rg_location := p_location params;
              rg_tags := Some (p_tags params) |};
     list_groups :=
       ([{| rg_name := "rg1"; rg_location := "eastus"; rg_tags := None |};
         {| rg_name := "rg2"; rg_location := "westus";
            rg_tags := Some {["Owner" := "ops"]} |}], None) |}.

Definition sdk_empty : Provider :=
  {| new_credential := None;
     new_client := λ _, None;
     create_or_update := λ name params, inl (AzureError "denied");
     list_groups := ([], None) |}.

Definition sdk_failing : Provider :=
  {| new_credential := None;
     new_client := λ _, None;
     create_or_update := λ name params, inl (AzureError "denied");
     list_groups :=
       ([{| rg_name := "rg1"; rg_location := "eastus"; rg_tags := None |}],
        Some (OtherException "connection reset")) |}.

Definition sdk_interrupted : Provider :=
  {| new_credential := None;
     new_client := λ _, None;
     create_or_update := λ name params, inl KeyboardInterrupt;
     list_groups := ([], Some KeyboardInterrupt) |}.

Definition sdk_no_credential : Provider :=
  {| new_credential := Some (OtherException "no credentials");
     new_client := λ _, None;
     create_or_update := λ name params, inl (AzureError "denied");
     list_groups := ([], None) |}.

Definition args_create : Args :=
  {| action := "create"; subscription_id := "S";
     resource_group := Some "rg1"; location := "eastus";
     environment := "prod"; log_level := "INFO" |}.

Definition args_create_unnamed : Args :=
  {| action := "create"; subscription_id := "S";
     resource_group := None; location := "West Europe";
     environment := "dev"; log_level := "INFO" |}.

Definition args_list : Args :=
  {| action := "list"; subscription_id := "S";
     resource_group := None; location := "West Europe";
     environment := "dev"; log_level := "INFO" |}.

(** Command lines: a listing, and the same with a level name argparse does
    not offer. *)
Definition cli_list : list (Flag * string) :=
  [(ActionFlag, "list"); (SubscriptionIdFlag, "S")].


Definition arm_S : AzureResourceManager :=
  {| arm_subscription_id := "S"; arm_logger := module_name |}.

(** What every world a run can reach satisfies: handler identities are not
    reused. *)
Definition registry_ok (w : World) : Prop :=
  ids_allocated w ∧ NoDup (h_id <$> handlers_of w).

(** The worlds the sample invocations pass through. *)
Definition world_after_setup : World :=
  (setup_logging "INFO" initial_world).2.

Definition world_after_init (P : Provider) : World :=
  (AzureResourceManager_init P "S" module_name world_after_setup).2.

(** ** Predicates of the end-to-end statements *)

(** Events of the create operation, of the facade or of the SDK. *)
Definition is_create_event (ev : Event) : bool :=
  match ev with
  | EvCallCreate _ _ _ | EvCreateOrUpdate _ _ => true
  | _ => false
  end.

(** Events of the list operation, of the facade or of the SDK. *)
Definition is_list_event (ev : Event) : bool :=
  match ev with
  | EvCallList | EvListGroups => true
  | _ => false
  end.

(** [isinstance(e, SystemExit)] *)
Definition is_SystemExit (e : exn) : bool :=
  match e with SystemExit _ => true | _ => false end.

(** The SDK never raises [SystemExit] itself. *)
Definition raises_no_exit (P : Provider) : Prop :=
  (∀ e, new_credential P = Some e → is_SystemExit e = false) ∧
  (∀ subscription e,
     new_client P subscription = Some e → is_SystemExit e = false) ∧
  (∀ name params e,
     create_or_update P name params = inl e → is_SystemExit e = false) ∧
  (∀ e, (list_groups P).2 = Some e → is_SystemExit e = false).

(** What the [except] clauses of [main] make of an exception that reaches
    them: the result of [main], and what they log. *)
Definition guard_result (e : exn) : result unit :=
  if is_KeyboardInterrupt e then Raise (SystemExit 130)
  else if is_Exception e then Raise (SystemExit 1)
  else Raise e.

Definition guard_events (e : exn) : list Event :=
  if is_KeyboardInterrupt e then [EvLog INFO "Operation cancelled by user"]
  else if is_Exception e then
    [EvLog ERROR ("Unexpected error: " +:+ exn_str e)]
  else [].

(** The SDK calls that build the facade, up to the one that fails. *)
Definition init_events (P : Provider) (subscription : string) : list Event :=
  match new_credential P with
  | Some _ => [EvCredential]
  | None => [EvCredential; EvClient subscription]
  end.

(** The events of a list run up to and including the SDK call. *)
Definition list_events (args : Args) : list Event :=
  [EvCredential; EvClient (subscription_id args); EvCallList;
   EvLog INFO "Listing resource groups"; EvListGroups].

(** The events of a create run up to and including the SDK call. *)
Definition create_events (args : Args) (name : string) : list Event :=
  [EvCredential; EvClient (subscription_id args);
   EvCallCreate name (location args)
     (Some (environment_tags (environment args)));
   EvLog INFO ("Creating resource group: " +:+ name);
   EvCreateOrUpdate name
     {| p_location := location args;
        p_tags := environment_tags (environment args) |}].

(** * Lemmas *)

(** ** Strings *)

Lemma upper_ascii_idem c : upper_ascii (upper_ascii c) = upper_ascii c.
Proof. by destruct c as [[] [] [] [] [] [] [] []]. Qed.

Lemma upper_idem s : upper (upper s) = upper s.
Proof.
  induction s as [|c s IH]; simpl; [done|].
  by rewrite upper_ascii_idem, IH.
Qed.

(** ** The monad *)

Lemma bind_Ret {A B} (m : M A) (k : A → M B) w a w1 :
  m w = (Ret a, w1) → bind m k w = k a w1.
Proof. unfold bind. by intros ->. Qed.

Lemma bind_Raise {A B} (m : M A) (k : A → M B) w e w1 :
  m w = (Raise e, w1) → bind m k w = (Raise e, w1).
Proof. unfold bind. by intros ->. Qed.

Lemma try_Ret {A} (body : M A) handlers w a w1 :
  body w = (Ret a, w1) → try_except body handlers w = (Ret a, w1).
Proof. unfold try_except. by intros ->. Qed.

Lemma try_caught {A} (body : M A) handlers w e w1 h :
  body w = (Raise e, w1) → handlers e = Some h →
  try_except body handlers w = h w1.
Proof. unfold try_except. by intros -> ->. Qed.

Lemma try_uncaught {A} (body : M A) handlers w e w1 :
  body w = (Raise e, w1) → handlers e = None →
  try_except body handlers w = (Raise e, w1).
Proof. unfold try_except. by intros -> ->. Qed.

(** ** Logger calls *)

Lemma log_eq logger level msg w :
  log logger level msg w = (Ret (), logged logger level msg w).
Proof.
  unfold logged, log, bind, emit. simpl. by case_bool_decide.
Qed.

Lemma trace_logged logger level msg w :
  w_trace (logged logger level msg w) = w_trace w ++ [EvLog level msg].
Proof.
  unfold logged, log, bind, emit. simpl. by case_bool_decide.
Qed.

Lemma registry_logged logger level msg w :
  w_registry (logged logger level msg w) = w_registry w.
Proof.
  unfold logged, log, bind, emit. simpl. by case_bool_decide.
Qed.

Lemma info_eq logger msg w :
  logger_info logger msg w = (Ret (), logged logger INFO msg w).
Proof. apply log_eq. Qed.

Lemma error_eq logger msg w :
  logger_error logger msg w = (Ret (), logged logger ERROR msg w).
Proof. apply log_eq. Qed.

Lemma trace_record_event ev w :
  w_trace (record_event ev w) = w_trace w ++ [ev].
Proof. done. Qed.

(** ** Stepping through a computation *)

Lemma bind_bind {A B C} (m : M A) (f : A → M B) (g : B → M C) w :
  bind (bind m f) g w = bind m (λ a, bind (f a) g) w.
Proof. unfold bind. by destruct (m w) as [[a|e] w1]. Qed.

Lemma bind_ret {A B} (a : A) (k : A → M B) w : bind (ret a) k w = k a w.
Proof. done. Qed.

Lemma bind_raise {A B} e (k : A → M B) w :
  bind (raise e) k w = (Raise e, w).
Proof. done. Qed.

Lemma bind_sys_exit {A B} code (k : A → M B) w :
  bind (sys_exit code) k w = (Raise (SystemExit code), w).
Proof. done. Qed.

Lemma bind_emit {B} ev (k : unit → M B) w :
  bind (emit ev) k w = k () (record_event ev w).
Proof. done. Qed.

Lemma bind_info {B} logger msg (k : unit → M B) w :
  bind (logger_info logger msg) k w = k () (logged logger INFO msg w).
Proof. apply bind_Ret, info_eq. Qed.

Lemma bind_error {B} logger msg (k : unit → M B) w :
  bind (logger_error logger msg) k w = k () (logged logger ERROR msg w).
Proof. apply bind_Ret, error_eq. Qed.

Create Rewrite HintDb py.
Create Rewrite HintDb trace.
#[local] Hint Rewrite @bind_bind @bind_ret @bind_raise @bind_sys_exit
  @bind_emit @bind_info @bind_error : py.
#[local] Hint Rewrite trace_logged trace_record_event : trace.

(** Membership of an event in an explicit trace. *)
Ltac in_trace :=
  rewrite ?elem_of_app, ?elem_of_cons, ?list_elem_of_singleton; tauto.

(** Brings a trace to the shape [old ++ [ev1; ...; evn]]. *)
Ltac trace_norm :=
  autorewrite with trace; rewrite <- ?app_assoc; simpl.

(** ** The logger factory *)

Lemma the_logger_insert name lg reg n out tr :
  the_logger name
    {| w_registry := <[name := lg]> reg; w_next_id := n; w_stdout := out;
       w_trace := tr |} = lg.
Proof. unfold the_logger. simpl. by rewrite lookup_insert_eq. Qed.

Lemma getLogger_eq name w :
  ∃ w', getLogger name w = (Ret name, w') ∧
    the_logger name w' = the_logger name w ∧
    w_next_id w' = w_next_id w ∧ w_stdout w' = w_stdout w ∧
    w_trace w' = w_trace w.
Proof.
  unfold getLogger. destruct (w_registry w !! name) as [lg|] eqn:E.
  - by eexists.
  - eexists. split; [done|]. unfold set_registry.
    rewrite the_logger_insert. unfold the_logger. by rewrite E.
Qed.

Lemma setup_logging_valid s w lvl :
  nameToLevel (upper s) = Some lvl →
  ∃ w', setup_logging s w = (Ret module_name, w') ∧
    the_logger module_name w' =
      {| lg_level := lvl; lg_handlers := handlers_after w |} ∧
    w_next_id w' = S (w_next_id w) ∧ w_stdout w' = w_stdout w ∧
    w_trace w' = w_trace w.
Proof.
  intros Hlvl. unfold setup_logging.
  destruct (getLogger_eq module_name w) as (w0 & Hget & Hlg & Hid & Hout & Htr).
  rewrite (bind_Ret _ _ _ _ _ Hget).
  unfold logging_getattr. rewrite Hlvl.
  unfold bind at 1, ret at 1. unfold setLevel, checkLevel.
  unfold bind, ret, StreamHandler, addHandler, setFormatter. simpl.
  rewrite !the_logger_insert. simpl.
  unfold handlers_after, handlers_of. rewrite <- Hlg, <- Hid.
  destruct (handler_in _ _); eexists; (split; [done|]); simpl.
  - by rewrite the_logger_insert, Hout, Htr.
  - unfold set_registry. simpl. by rewrite the_logger_insert, Hout, Htr.
Qed.

Lemma setup_logging_invalid s w :
  nameToLevel (upper s) = None →
  ∃ e w', setup_logging s w = (Raise e, w') ∧
    is_configuration_error e = true ∧
    handlers_of w' = handlers_of w ∧
    w_next_id w' = w_next_id w ∧ w_stdout w' = w_stdout w ∧
    w_trace w' = w_trace w.
Proof.
  intros Hlvl. unfold setup_logging.
  destruct (getLogger_eq module_name w) as (w0 & Hget & Hlg & Hid & Hout & Htr).
  rewrite (bind_Ret _ _ _ _ _ Hget).
  unfold logging_getattr. rewrite Hlvl. unfold handlers_of. rewrite <- Hlg.
  repeat case_bool_decide.
  - unfold bind, ret, setLevel, checkLevel, bind, raise. simpl.
    by eexists _, _.
  - unfold bind, ret, setLevel, checkLevel, bind, raise. simpl.
    by eexists _, _.
  - unfold bind, raise. by eexists _, _.
Qed.

(** ** The facade *)

Section Facade.

Context (P : Provider).

Lemma init_returns subscription logger w :
  new_credential P = None → new_client P subscription = None →
  ∃ w', AzureResourceManager_init P subscription logger w =
          (Ret {| arm_subscription_id := subscription;
                  arm_logger := logger |}, w') ∧
    w_trace w' = w_trace w ++ [EvCredential; EvClient subscription].
Proof.
  intros Hc Hk. unfold AzureResourceManager_init, DefaultAzureCredential,
    ResourceManagementClient.
  autorewrite with py. rewrite Hc. autorewrite with py. rewrite Hk.
  autorewrite with py. eexists. split; [done|]. by trace_norm.
Qed.

Lemma init_raises subscription logger w e :
  new_credential P = Some e ∨
  (new_credential P = None ∧ new_client P subscription = Some e) →
  ∃ w' evs, AzureResourceManager_init P subscription logger w = (Raise e, w') ∧
    w_trace w' = w_trace w ++ evs ∧ Forall (λ ev, is_call_create ev = false) evs.
Proof.
  unfold AzureResourceManager_init, DefaultAzureCredential,
    ResourceManagementClient.
  intros [Hc|[Hc Hk]]; autorewrite with py; rewrite Hc; autorewrite with py.
  - eexists _, _. split; [done|]. split; [by trace_norm|].
    by repeat constructor.
  - rewrite Hk. autorewrite with py. eexists _, _. split; [done|].
    split; [by trace_norm|]. by repeat constructor.
Qed.

Lemma create_returns_true self name location tags w r :
  create_or_update P name
    {| p_location := location; p_tags := tags_or_empty tags |} = inr r →
  ∃ w', create_resource_group P self name location tags w = (Ret true, w') ∧
    w_trace w' = w_trace w ++
      [EvCallCreate name location tags;
       EvLog INFO ("Creating resource group: " +:+ name);
       EvCreateOrUpdate name
         {| p_location := location; p_tags := tags_or_empty tags |};
       EvLog INFO ("Resource group created successfully: " +:+ rg_name r)].
Proof.
  intros Hp. unfold create_resource_group, resource_groups_create_or_update.
  rewrite bind_emit. unfold try_except. autorewrite with py. rewrite Hp.
  autorewrite with py. eexists. split; [done|]. by trace_norm.
Qed.

Lemma create_returns_false self name location tags w e :
  create_or_update P name
    {| p_location := location; p_tags := tags_or_empty tags |} = inl e →
  is_Exception e = true →
  ∃ w', create_resource_group P self name location tags w = (Ret false, w') ∧
    w_trace w' = w_trace w ++
      [EvCallCreate name location tags;
       EvLog INFO ("Creating resource group: " +:+ name);
       EvCreateOrUpdate name
         {| p_location := location; p_tags := tags_or_empty tags |};
       EvLog ERROR
         ((if is_AzureError e then "Azure error creating resource group: "
           else "Unexpected error: ") +:+ exn_str e)].
Proof.
  intros Hp He. unfold create_resource_group, resource_groups_create_or_update.
  rewrite bind_emit. unfold try_except. autorewrite with py. rewrite Hp.
  autorewrite with py. rewrite He.
  destruct (is_AzureError e); autorewrite with py;
    (eexists; split; [done|]); by trace_norm.
Qed.

Lemma create_propagates self name location tags w e :
  create_or_update P name
    {| p_location := location; p_tags := tags_or_empty tags |} = inl e →
  is_Exception e = false →
  ∃ w', create_resource_group P self name location tags w = (Raise e, w') ∧
    w_trace w' = w_trace w ++
      [EvCallCreate name location tags;
       EvLog INFO ("Creating resource group: " +:+ name);
       EvCreateOrUpdate name
         {| p_location := location; p_tags := tags_or_empty tags |}].
Proof.
  intros Hp He. unfold create_resource_group, resource_groups_create_or_update.
  rewrite bind_emit. unfold try_except. autorewrite with py. rewrite Hp.
  autorewrite with py. rewrite He.
  replace (is_AzureError e) with false by by destruct e.
  eexists. split; [done|]. by trace_norm.
Qed.

Lemma tags_or_empty_default tags :
  tags_or_empty tags = match tags with Some t => t | None => ∅ end.
Proof.
  destruct tags as [t|]; simpl; [|done]. by case_bool_decide.
Qed.

Lemma collect_groups_eq items stop acc w :
  collect_groups items stop acc w =
    match stop with
    | Some e => (Raise e, w)
    | None => (Ret (acc ++ map record_of items), w)
    end.
Proof.
  revert acc. induction items as [|g items IH]; intros acc; simpl.
  - destruct stop; [done|]. by rewrite app_nil_r.
  - rewrite IH. destruct stop; [done|].
    unfold record_of at 2. by rewrite tags_or_empty_default, <- app_assoc.
Qed.

Lemma list_returns_groups self w items :
  list_groups P = (items, None) →
  ∃ w', list_resource_groups P self w =
          (Ret (Some (map record_of items)), w') ∧
    w_trace w' = w_trace w ++
      [EvCallList; EvLog INFO "Listing resource groups"; EvListGroups;
       EvLog INFO ("Found " +:+ pretty (length items) +:+ " resource groups")].
Proof.
  intros Hp. unfold list_resource_groups.
  rewrite bind_emit. unfold try_except. autorewrite with py.
  unfold bind at 1. rewrite collect_groups_eq, Hp. cbn [fst snd].
  autorewrite with py. eexists. split; [done|]. trace_norm.
  by rewrite length_map.
Qed.

Lemma list_returns_None self w items e :
  list_groups P = (items, Some e) → is_Exception e = true →
  ∃ w', list_resource_groups P self w = (Ret None, w') ∧
    w_trace w' = w_trace w ++
      [EvCallList; EvLog INFO "Listing resource groups"; EvListGroups;
       EvLog ERROR
         ((if is_AzureError e then "Azure error listing resource groups: "
           else "Unexpected error: ") +:+ exn_str e)].
Proof.
  intros Hp He. unfold list_resource_groups.
  rewrite bind_emit. unfold try_except. autorewrite with py.
  unfold bind at 1. rewrite collect_groups_eq, Hp. cbn [fst snd]. rewrite He.
  destruct (is_AzureError e); autorewrite with py;
    (eexists; split; [done|]); by trace_norm.
Qed.

Lemma list_propagates self w items e :
  list_groups P = (items, Some e) → is_Exception e = false →
  ∃ w', list_resource_groups P self w = (Raise e, w') ∧
    w_trace w' = w_trace w ++
      [EvCallList; EvLog INFO "Listing resource groups"; EvListGroups].
Proof.
  intros Hp He. unfold list_resource_groups.
  rewrite bind_emit. unfold try_except. autorewrite with py.
  unfold bind at 1. rewrite collect_groups_eq, Hp. cbn [fst snd]. rewrite He.
  replace (is_AzureError e) with false by by destruct e.
  eexists. split; [done|]. by trace_norm.
Qed.

Lemma log_groups_eq logger groups w :
  ∃ w', log_groups logger groups w = (Ret (), w') ∧
    w_trace w' = w_trace w ++
      map (λ g, EvLog INFO
                  ("  - " +:+ rec_name g +:+ " (" +:+ rec_location g +:+ ")"))
        groups.
Proof.
  revert w. induction groups as [|g groups IH]; intros w; simpl.
  - eexists. split; [done|]. by rewrite app_nil_r.
  - rewrite bind_info.
    destruct (IH (logged logger INFO
      ("  - " +:+ rec_name g +:+ " (" +:+ rec_location g +:+ ")") w))
      as (w' & -> & Htr).
    eexists. split; [done|]. rewrite Htr. by trace_norm.
Qed.

End Facade.

(** ** The entry point *)

Lemma main_guard P args w logger wa :
  setup_logging (log_level args) w = (Ret logger, wa) →
  main P args w =
    match main_try P args logger wa with
    | (Ret a, w') => (Ret a, w')
    | (Raise e, w') =>
        if is_KeyboardInterrupt e then
          (Raise (SystemExit 130),
           logged logger INFO "Operation cancelled by user" w')
        else if is_Exception e then
          (Raise (SystemExit 1),
           logged logger ERROR ("Unexpected error: " +:+ exn_str e) w')
        else (Raise e, w')
    end.
Proof.
  intros Hs. unfold main. rewrite (bind_Ret _ _ _ _ _ Hs). unfold try_except.
  destruct (main_try P args logger wa) as [[a|e] w']; [done|].
  destruct (is_KeyboardInterrupt e); [by autorewrite with py|].
  destruct (is_Exception e); [by autorewrite with py|done].
Qed.

Lemma setup_logging_Ret s w logger wa :
  setup_logging s w = (Ret logger, wa) →
  logger = module_name ∧ w_trace wa = w_trace w ∧
  is_Some (nameToLevel (upper s)).
Proof.
  intros Hs. destruct (nameToLevel (upper s)) as [lvl|] eqn:E.
  - destruct (setup_logging_valid s w lvl E) as (w' & Hs' & _ & _ & _ & Htr).
    rewrite Hs in Hs'. by simplify_eq.
  - destruct (setup_logging_invalid s w E) as (e & w' & Hs' & _).
    rewrite Hs in Hs'. by simplify_eq.
Qed.

Lemma init_Ret P subscription logger w arm w1 :
  AzureResourceManager_init P subscription logger w = (Ret arm, w1) →
  w_trace w1 = w_trace w ++ [EvCredential; EvClient subscription].
Proof.
  intros Hi.
  destruct (new_credential P) as [e|] eqn:Hc.
  { destruct (init_raises P subscription logger w e) as (w' & evs & Hi' & _);
      [by left|]. rewrite Hi in Hi'. by simplify_eq. }
  destruct (new_client P subscription) as [e|] eqn:Hk.
  { destruct (init_raises P subscription logger w e) as (w' & evs & Hi' & _);
      [by right|]. rewrite Hi in Hi'. by simplify_eq. }
  destruct (init_returns P subscription logger w Hc Hk) as (w' & Hi' & Htr).
  rewrite Hi in Hi'. by simplify_eq.
Qed.

Lemma environment_tags_lookup environment k :
  environment_tags environment !! k =
    if bool_decide (k = "Environment") then Some environment
    else if bool_decide (k = "ManagedBy") then Some "DevOps-Automation"
    else if bool_decide (k = "Project") then Some "DevOps-Tools"
    else None.
Proof.
  unfold environment_tags. repeat case_bool_decide; by simplify_map_eq.
Qed.

Lemma create_trace P self name location tags w :
  ∃ res w' rest,
    create_resource_group P self name location tags w = (res, w') ∧
    w_trace w' = w_trace w ++ EvCallCreate name location tags :: rest ∧
    Forall (λ ev, is_call_create ev = false) rest ∧
    (∀ e, res = Raise e → is_Exception e = false).
Proof.
  destruct (create_or_update P name
    {| p_location := location; p_tags := tags_or_empty tags |})
    as [e|r] eqn:Hp.
  - destruct (is_Exception e) eqn:He.
    + destruct (create_returns_false P self name location tags w e Hp He)
        as (w' & -> & Htr).
      eexists _, _, _. split; [done|]. split; [exact Htr|].
      split; [by repeat constructor|done].
    + destruct (create_propagates P self name location tags w e Hp He)
        as (w' & -> & Htr).
      eexists _, _, _. split; [done|]. split; [exact Htr|].
      split; [by repeat constructor|]. intros e' ?. by simplify_eq.
  - destruct (create_returns_true P self name location tags w r Hp)
      as (w' & -> & Htr).
    eexists _, _, _. split; [done|]. split; [exact Htr|].
    split; [by repeat constructor|done].
Qed.

(** * The dispatch of [main], once the logger and the facade are built *)

Section Dispatch.

Context (P : Provider) (args : Args) (w : World).
Context (logger : string) (wa : World).
Context (arm : AzureResourceManager) (w1 : World).

Hypothesis Hsetup : setup_logging (log_level args) w = (Ret logger, wa).
Hypothesis Hinit :
  AzureResourceManager_init P (subscription_id args) logger wa = (Ret arm, w1).

Lemma trace_before_dispatch :
  w_trace w1 = w_trace w ++ [EvCredential; EvClient (subscription_id args)].
Proof.
  destruct (setup_logging_Ret _ _ _ _ Hsetup) as (_ & <- & _).
  exact (init_Ret _ _ _ _ _ _ Hinit).
Qed.

Lemma main_try_create name :
  action args = "create" → resource_group args = Some name → name ≠ "" →
  main_try P args logger wa =
    bind (create_resource_group P arm name (location args)
            (Some (environment_tags (environment args))))
      (λ success : bool,
         if success then
           logger_info logger
             "Resource group creation completed successfully" ;;;
           sys_exit 0
         else
           logger_error logger "Resource group creation failed" ;;;
           sys_exit 1) w1.
Proof.
  intros Ha Hrg Hne. unfold main_try. rewrite (bind_Ret _ _ _ _ _ Hinit).
  rewrite bool_decide_eq_true_2 by done. rewrite Hrg.
  rewrite bool_decide_eq_false_2 by done. by rewrite bind_ret.
Qed.

Lemma main_try_list :
  action args = "list" →
  main_try P args logger wa =
    bind (list_resource_groups P arm)
      (λ resource_groups,
         match resource_groups with
         | Some groups =>
             logger_info logger "Resource Groups:" ;;;
             log_groups logger groups ;;;
             sys_exit 0
         | None =>
             logger_error logger "Failed to list resource groups" ;;;
             sys_exit 1
         end) w1.
Proof.
  intros Ha. unfold main_try. rewrite (bind_Ret _ _ _ _ _ Hinit).
  rewrite bool_decide_eq_false_2 by by rewrite Ha.
  by rewrite bool_decide_eq_true_2 by done.
Qed.

Lemma main_create_returns name b w2 :
  action args = "create" → resource_group args = Some name → name ≠ "" →
  create_resource_group P arm name (location args)
    (Some (environment_tags (environment args))) w1 = (Ret b, w2) →
  main P args w =
    if b then
      (Raise (SystemExit 0),
       logged logger INFO "Resource group creation completed successfully" w2)
    else
      (Raise (SystemExit 1),
       logged logger ERROR "Resource group creation failed" w2).
Proof.
  intros Ha Hrg Hne Hc.
  rewrite (main_guard _ _ _ _ _ Hsetup), (main_try_create name Ha Hrg Hne).
  rewrite (bind_Ret _ _ _ _ _ Hc).
  by destruct b; autorewrite with py.
Qed.

Lemma main_list_returns r w2 :
  action args = "list" →
  list_resource_groups P arm w1 = (Ret r, w2) →
  main P args w =
    match r with
    | Some groups =>
        (Raise (SystemExit 0),
         (log_groups logger groups
            (logged logger INFO "Resource Groups:" w2)).2)
    | None =>
        (Raise (SystemExit 1),
         logged logger ERROR "Failed to list resource groups" w2)
    end.
Proof.
  intros Ha Hl.
  rewrite (main_guard _ _ _ _ _ Hsetup), (main_try_list Ha).
  rewrite (bind_Ret _ _ _ _ _ Hl).
  destruct r as [groups|]; autorewrite with py; [|done].
  destruct (log_groups_eq logger groups
              (logged logger INFO "Resource Groups:" w2)) as (w3 & Hg & _).
  rewrite (bind_Ret _ _ _ _ _ Hg). by rewrite Hg.
Qed.

(** C1. An invocation with action=create and a resource-group name (a
    non-empty one: the script takes an empty name for a missing one), once
    its logger and its facade are built, calls the facade's create operation
    exactly once, with the given name and location and with a tag mapping
    that holds exactly Environment (the --environment value), ManagedBy =
    "DevOps-Automation" and Project = "DevOps-Tools": every other key is
    absent. *)
Theorem create_called_with_environment_tags name :
  action args = "create" → resource_group args = Some name → name ≠ "" →
  ∃ tags rest,
    w_trace (main P args w).2 =
      w_trace w ++
        [EvCredential; EvClient (subscription_id args);
         EvCallCreate name (location args) (Some tags)] ++ rest ∧
    Forall (λ ev, is_call_create ev = false) rest ∧
    ∀ k, tags !! k =
      if bool_decide (k = "Environment") then Some (environment args)
      else if bool_decide (k = "ManagedBy") then Some "DevOps-Automation"
      else if bool_decide (k = "Project") then Some "DevOps-Tools"
      else None.
Proof.
  intros Ha Hrg Hne.
  rewrite (main_guard _ _ _ _ _ Hsetup), (main_try_create name Ha Hrg Hne).
  destruct (create_trace P arm name (location args)
              (Some (environment_tags (environment args))) w1)
    as (res & w2 & rest & Hc & Htr & Hrest & Hexn).
  rewrite trace_before_dispatch in Htr.
  exists (environment_tags (environment args)).
  destruct res as [[|]|e].
  - rewrite (bind_Ret _ _ _ _ _ Hc). autorewrite with py. simpl.
    eexists. split; [|split; [|apply environment_tags_lookup]].
    + trace_norm. rewrite Htr, <- !app_assoc. simpl. reflexivity.
    + apply Forall_app. split; [done|]. by repeat constructor.
  - rewrite (bind_Ret _ _ _ _ _ Hc). autorewrite with py. simpl.
    eexists. split; [|split; [|apply environment_tags_lookup]].
    + trace_norm. rewrite Htr, <- !app_assoc. simpl. reflexivity.
    + apply Forall_app. split; [done|]. by repeat constructor.
  - rewrite (bind_Raise _ _ _ _ _ Hc). rewrite (Hexn e eq_refl).
    destruct (is_KeyboardInterrupt e); simpl.
    + eexists. split; [|split; [|apply environment_tags_lookup]].
      * trace_norm. rewrite Htr, <- !app_assoc. simpl. reflexivity.
      * apply Forall_app. split; [done|]. by repeat constructor.
    + exists rest. split; [|split; [done|apply environment_tags_lookup]].
      rewrite Htr, <- !app_assoc. simpl. reflexivity.
Qed.

(** C3. With action=create, the exit status is 0 when the facade's create
    operation returns true and 1 when it returns false; the outcome is the
    last thing logged, at INFO or at ERROR. *)
Theorem create_exit_status name b w2 :
  action args = "create" → resource_group args = Some name → name ≠ "" →
  create_resource_group P arm name (location args)
    (Some (environment_tags (environment args))) w1 = (Ret b, w2) →
  (main P args w).1 = Raise (SystemExit (if b then 0 else 1)) ∧
  w_trace (main P args w).2 =
    w_trace w2 ++
      [if b then EvLog INFO "Resource group creation completed successfully"
       else EvLog ERROR "Resource group creation failed"].
Proof.
  intros Ha Hrg Hne Hc.
  rewrite (main_create_returns name b w2 Ha Hrg Hne Hc).
  destruct b; simpl; by trace_norm.
Qed.

(** C4. With action=create and no resource-group name (none given, or an
    empty one), the process logs an error and exits with status 1; the
    facade's create operation is never called, and neither is the SDK's. *)
Theorem create_without_name_exits_1 :
  action args = "create" →
  resource_group args = None ∨ resource_group args = Some "" →
  (main P args w).1 = Raise (SystemExit 1) ∧
  w_trace (main P args w).2 =
    w_trace w ++
      [EvCredential; EvClient (subscription_id args);
       EvLog ERROR "Resource group name is required for create action"].
Proof.
  intros Ha Hrg.
  rewrite (main_guard _ _ _ _ _ Hsetup). unfold main_try.
  rewrite (bind_Ret _ _ _ _ _ Hinit).
  rewrite bool_decide_eq_true_2 by done.
  destruct Hrg as [-> | ->]; [|rewrite bool_decide_eq_true_2 by done];
    autorewrite with py; simpl;
    by rewrite trace_logged, trace_before_dispatch, <- app_assoc.
Qed.

(** C5. With action=list, the exit status is 0 whenever the facade's list
    operation returns a sequence: the header line and then one line per
    group are logged, so none for the empty sequence.  When it returns
    null an error is logged and the exit status is 1. *)
Theorem list_exit_status r w2 :
  action args = "list" →
  list_resource_groups P arm w1 = (Ret r, w2) →
  match r with
  | Some groups =>
      (main P args w).1 = Raise (SystemExit 0) ∧
      w_trace (main P args w).2 =
        w_trace w2 ++
          EvLog INFO "Resource Groups:" ::
          map (λ g, EvLog INFO
                      ("  - " +:+ rec_name g +:+ " (" +:+
                       rec_location g +:+ ")")) groups ∧
      (groups = [] →
       w_trace (main P args w).2 =
         w_trace w2 ++ [EvLog INFO "Resource Groups:"])
  | None =>
      (main P args w).1 = Raise (SystemExit 1) ∧
      w_trace (main P args w).2 =
        w_trace w2 ++ [EvLog ERROR "Failed to list resource groups"]
  end.
Proof.
  intros Ha Hl. rewrite (main_list_returns r w2 Ha Hl).
  destruct r as [groups|]; simpl.
  - destruct (log_groups_eq logger groups
                (logged logger INFO "Resource Groups:" w2))
      as (w3 & Hg & Htr).
    rewrite Hg. simpl. rewrite Htr, trace_logged, <- app_assoc. simpl.
    split; [done|]. split; [done|]. by intros ->.
  - by trace_norm.
Qed.

End Dispatch.

(** * The facade's failure handling *)

(** C2, as stated, fails.  When a [KeyboardInterrupt] is raised while the
    SDK call of [create_resource_group] is running, neither [except] clause
    matches it: the operation does not return [False], nothing is logged
    for it, and the exception leaves the facade. *)
Lemma create_failure_not_always_caught :
  create_or_update sdk_interrupted "rg1"
    {| p_location := "eastus"; p_tags := tags_or_empty None |} =
    inl KeyboardInterrupt ∧
  (create_resource_group sdk_interrupted arm_S "rg1" "eastus" None
     initial_world).1 = Raise KeyboardInterrupt ∧
  (create_resource_group sdk_interrupted arm_S "rg1" "eastus" None
     initial_world).1 ≠ Ret false ∧
  w_trace (create_resource_group sdk_interrupted arm_S "rg1" "eastus" None
             initial_world).2 =
    [EvCallCreate "rg1" "eastus" None;
     EvLog INFO "Creating resource group: rg1";
     EvCreateOrUpdate "rg1" {| p_location := "eastus"; p_tags := ∅ |}].
Proof.
  split; [reflexivity|]. split; [by vm_compute|].
  split; [by vm_compute|]. by vm_compute.
Qed.

(** C2, amended.  When the SDK call inside [create_resource_group] raises an
    exception that is an instance of [Exception] (the provider's
    [AzureError] or any other), the operation logs it as an error and
    returns [False]; an exception that is not (a [KeyboardInterrupt], a
    [SystemExit]) is not caught and goes on to the caller.  Either way the
    SDK call was made once. *)
Theorem create_failure_caught P self name location tags w e :
  create_or_update P name
    {| p_location := location; p_tags := tags_or_empty tags |} = inl e →
  (is_Exception e = true →
   (create_resource_group P self name location tags w).1 = Ret false ∧
   w_trace (create_resource_group P self name location tags w).2 =
     w_trace w ++
       [EvCallCreate name location tags;
        EvLog INFO ("Creating resource group: " +:+ name);
        EvCreateOrUpdate name
          {| p_location := location; p_tags := tags_or_empty tags |};
        EvLog ERROR
          ((if is_AzureError e then "Azure error creating resource group: "
            else "Unexpected error: ") +:+ exn_str e)]) ∧
  (is_Exception e = false →
   (create_resource_group P self name location tags w).1 = Raise e ∧
   w_trace (create_resource_group P self name location tags w).2 =
     w_trace w ++
       [EvCallCreate name location tags;
        EvLog INFO ("Creating resource group: " +:+ name);
        EvCreateOrUpdate name
          {| p_location := location; p_tags := tags_or_empty tags |}]).
Proof.
  intros Hp. split; intros He.
  - destruct (create_returns_false P self name location tags w e Hp He)
      as (w' & -> & Htr). done.
  - destruct (create_propagates P self name location tags w e Hp He)
      as (w' & -> & Htr). done.
Qed.

(** C6. A call of [list_resource_groups] over a listing that ends normally
    returns one record per group the provider yielded, in the order
    yielded, each with the group's name, its location, and its tags or the
    empty mapping when it has none; and whenever the call returns a
    sequence, it is that one.  When the listing fails, with the provider's
    [AzureError] or with any other [Exception], the call logs the error
    and returns [None]. *)
Theorem list_resource_groups_result P self w :
  (∀ items, list_groups P = (items, None) →
     (list_resource_groups P self w).1 =
       Ret (Some (map (λ g, {| rec_name := rg_name g;
                               rec_location := rg_location g;
                               rec_tags := match rg_tags g with
                                           | Some t => t
                                           | None => ∅
                                           end |}) items))) ∧
  (∀ groups, (list_resource_groups P self w).1 = Ret (Some groups) →
     (list_groups P).2 = None ∧
     length groups = length (list_groups P).1 ∧
     ∀ i g, (list_groups P).1 !! i = Some g →
       groups !! i = Some {| rec_name := rg_name g;
                             rec_location := rg_location g;
                             rec_tags := default ∅ (rg_tags g) |}) ∧
  (∀ items e, list_groups P = (items, Some e) → is_Exception e = true →
     (list_resource_groups P self w).1 = Ret None ∧
     w_trace (list_resource_groups P self w).2 =
       w_trace w ++
         [EvCallList; EvLog INFO "Listing resource groups"; EvListGroups;
          EvLog ERROR
            ((if is_AzureError e then "Azure error listing resource groups: "
              else "Unexpected error: ") +:+ exn_str e)]).
Proof.
  split; [|split].
  - intros items Hp.
    by destruct (list_returns_groups P self w items Hp) as (w' & -> & _).
  - intros groups Hr. destruct (list_groups P) as [items [e|]] eqn:Hp.
    + destruct (is_Exception e) eqn:He.
      * destruct (list_returns_None P self w items e Hp He) as (w' & Hl & _).
        rewrite Hl in Hr. discriminate.
      * destruct (list_propagates P self w items e Hp He) as (w' & Hl & _).
        rewrite Hl in Hr. discriminate.
    + destruct (list_returns_groups P self w items Hp) as (w' & Hl & _).
      rewrite Hl in Hr. simpl in Hr. simplify_eq. simpl.
      split; [done|]. split; [by rewrite length_map|].
      intros i g Hg. rewrite list_lookup_fmap, Hg. simpl.
      unfold record_of. by destruct (rg_tags g).
  - intros items e Hp He.
    by destruct (list_returns_None P self w items e Hp He) as (w' & -> & ?).
Qed.

(** * The top-level guard *)

Lemma Exception_not_interrupt e :
  is_Exception e = true → is_KeyboardInterrupt e = false.
Proof. by destruct e. Qed.

Lemma main_when_try_raises P args w logger wa e w' :
  setup_logging (log_level args) w = (Ret logger, wa) →
  main_try P args logger wa = (Raise e, w') →
  (e = KeyboardInterrupt →
   (main P args w).1 = Raise (SystemExit 130) ∧
   w_trace (main P args w).2 =
     w_trace w' ++ [EvLog INFO "Operation cancelled by user"]) ∧
  (is_Exception e = true →
   (main P args w).1 = Raise (SystemExit 1) ∧
   w_trace (main P args w).2 =
     w_trace w' ++ [EvLog ERROR ("Unexpected error: " +:+ exn_str e)]) ∧
  (∀ code, e = SystemExit code →
   (main P args w).1 = Raise (SystemExit code) ∧
   w_trace (main P args w).2 = w_trace w').
Proof.
  intros Hs Ht. rewrite (main_guard _ _ _ _ _ Hs), Ht.
  split; [|split].
  - intros ->. simpl. by rewrite trace_logged.
  - intros He. rewrite (Exception_not_interrupt e He), He. simpl.
    by rewrite trace_logged.
  - by intros code ->.
Qed.

(** C7. Under the guard of [main], whichever phase raises (building the
    facade, the create call, the listing): a [KeyboardInterrupt] ends the
    process with status 130, after the cancellation is logged; any other
    failure, an [Exception], is logged as an error, with its text, and the
    process ends with status 1. *)
Theorem top_level_guard P args w e :
  valid_level (log_level args) → raises_in_phase P args e →
  (e = KeyboardInterrupt →
   (main P args w).1 = Raise (SystemExit 130) ∧
   last (w_trace (main P args w).2) =
     Some (EvLog INFO "Operation cancelled by user")) ∧
  (is_Exception e = true →
   (main P args w).1 = Raise (SystemExit 1) ∧
   ∃ prefix, EvLog ERROR (prefix +:+ exn_str e) ∈ w_trace (main P args w).2).
Proof.
  intros [lvl Hlvl] Hph.
  destruct (setup_logging_valid _ w lvl Hlvl) as (wa & Hs & _).
  destruct Hph as [Hc | [[Hc Hk] | (Hc & Hk & Hop)]].
  - destruct (init_raises P (subscription_id args) module_name wa e)
      as (w' & evs & Hi & _); [by left|].
    assert (main_try P args module_name wa = (Raise e, w')) as Ht
      by (unfold main_try; by rewrite (bind_Raise _ _ _ _ _ Hi)).
    destruct (main_when_try_raises _ _ _ _ _ _ _ Hs Ht) as (HK & HE & _).
    split.
    + intros Heq. destruct (HK Heq) as [H1 H2]. rewrite H1, H2.
      by rewrite last_snoc.
    + intros He. destruct (HE He) as [H1 H2]. rewrite H1, H2.
      split; [done|]. exists "Unexpected error: ". in_trace.
  - destruct (init_raises P (subscription_id args) module_name wa e)
      as (w' & evs & Hi & _); [by right|].
    assert (main_try P args module_name wa = (Raise e, w')) as Ht
      by (unfold main_try; by rewrite (bind_Raise _ _ _ _ _ Hi)).
    destruct (main_when_try_raises _ _ _ _ _ _ _ Hs Ht) as (HK & HE & _).
    split.
    + intros Heq. destruct (HK Heq) as [H1 H2]. rewrite H1, H2.
      by rewrite last_snoc.
    + intros He. destruct (HE He) as [H1 H2]. rewrite H1, H2.
      split; [done|]. exists "Unexpected error: ". in_trace.
  - destruct (init_returns P (subscription_id args) module_name wa Hc Hk)
      as (w1 & Hi & _).
    destruct Hop as [(Ha & name & Hrg & Hne & Hp) | (Ha & Hp)].
    + assert (create_or_update P name
        {| p_location := location args;
           p_tags := tags_or_empty
                       (Some (environment_tags (environment args))) |}
        = inl e) as Hp' by by rewrite tags_or_empty_default.
      split.
      * intros ->.
        destruct (create_propagates P
          {| arm_subscription_id := subscription_id args;
             arm_logger := module_name |} name (location args) _ w1 _ Hp'
          eq_refl) as (w2 & Hcr & _).
        assert (main_try P args module_name wa = (Raise KeyboardInterrupt, w2))
          as Ht.
        { rewrite (main_try_create _ _ _ _ _ _ Hi name Ha Hrg Hne).
          by rewrite (bind_Raise _ _ _ _ _ Hcr). }
        destruct (main_when_try_raises _ _ _ _ _ _ _ Hs Ht) as (HK & _).
        destruct (HK eq_refl) as [H1 H2]. rewrite H1, H2.
        by rewrite last_snoc.
      * intros He.
        destruct (create_returns_false P
          {| arm_subscription_id := subscription_id args;
             arm_logger := module_name |} name (location args) _ w1 _ Hp' He)
          as (w2 & Hcr & Htr).
        rewrite (main_create_returns P args w _ _ _ _ Hs Hi name false w2
                   Ha Hrg Hne Hcr). simpl.
        split; [done|]. rewrite trace_logged, Htr.
        exists (if is_AzureError e
                then "Azure error creating resource group: "
                else "Unexpected error: ").
        in_trace.
    + destruct (list_groups P) as [items stop] eqn:Hl. simpl in Hp. subst stop.
      split.
      * intros ->.
        destruct (list_propagates P
          {| arm_subscription_id := subscription_id args;
             arm_logger := module_name |} w1 items _ Hl eq_refl)
          as (w2 & Hls & _).
        assert (main_try P args module_name wa = (Raise KeyboardInterrupt, w2))
          as Ht.
        { rewrite (main_try_list _ _ _ _ _ _ Hi Ha).
          by rewrite (bind_Raise _ _ _ _ _ Hls). }
        destruct (main_when_try_raises _ _ _ _ _ _ _ Hs Ht) as (HK & _).
        destruct (HK eq_refl) as [H1 H2]. rewrite H1, H2.
        by rewrite last_snoc.
      * intros He.
        destruct (list_returns_None P
          {| arm_subscription_id := subscription_id args;
             arm_logger := module_name |} w1 items e Hl He)
          as (w2 & Hls & Htr).
        rewrite (main_list_returns P args w _ _ _ _ Hs Hi None w2 Ha Hls).
        simpl. split; [done|]. rewrite trace_logged, Htr.
        exists (if is_AzureError e
                then "Azure error listing resource groups: "
                else "Unexpected error: ").
        in_trace.
Qed.

(** * The logger factory *)








Lemma handler_in_fresh h hs :
  Forall (λ h', h_id h' < h_id h) hs → handler_in h hs = false.
Proof.
  induction 1 as [|h' hs Hlt _ IH]; simpl; [done|].
  rewrite IH, orb_false_r. apply Nat.eqb_neq. lia.
Qed.

Lemma setup_logging_adds_handler s w :
  valid_level s → ids_allocated w →
  (setup_logging s w).1 = Ret module_name ∧
  w_next_id (setup_logging s w).2 = S (w_next_id w) ∧
  handlers_of (setup_logging s w).2 =
    handlers_of w ++
      [{| h_id := w_next_id w; h_stream := Stdout;
          h_formatter :=
            Some "%(asctime)s - %(name)s - %(levelname)s - %(message)s" |}].
Proof.
  intros [lvl Hlvl] Hids.
  destruct (setup_logging_valid s w lvl Hlvl) as (w' & -> & Hlg & Hid & _).
  simpl. split; [done|]. split; [done|].
  unfold handlers_of at 1. rewrite Hlg. simpl. unfold handlers_after.
  by rewrite handler_in_fresh.
Qed.

Lemma id_not_allocated w :
  ids_allocated w → w_next_id w ∉ h_id <$> handlers_of w.
Proof.
  intros Hids Hin. apply list_elem_of_fmap in Hin as (h & Heq & Hh).
  unfold ids_allocated in Hids. rewrite Forall_forall in Hids.
  specialize (Hids h Hh). lia.
Qed.

Lemma registry_ok_setup s w :
  valid_level s → registry_ok w → registry_ok (setup_logging s w).2.
Proof.
  intros Hs [Hids Hnd].
  destruct (setup_logging_adds_handler s w Hs Hids) as (_ & Hid & Hh).
  split.
  - unfold ids_allocated. rewrite Hh, Hid. apply Forall_app. split.
    + eapply Forall_impl; [exact Hids|]. simpl. lia.
    + by repeat constructor.
  - rewrite Hh, fmap_app. apply NoDup_app. split; [done|]. split.
    + intros x Hx Hx'. apply list_elem_of_singleton in Hx'. subst x.
      by apply (id_not_allocated w).
    + apply NoDup_singleton.
Qed.

Lemma registry_ok_initial : registry_ok initial_world.
Proof. split; [by constructor|]. simpl. apply NoDup_nil_2. Qed.

Lemma setup_many_handlers levels w :
  Forall valid_level levels → registry_ok w →
  (setup_many levels w).1 = Ret () ∧
  registry_ok (setup_many levels w).2 ∧
  length (handlers_of (setup_many levels w).2) =
    length (handlers_of w) + length levels.
Proof.
  intros Hl. revert w. induction Hl as [|s levels Hs _ IH]; intros w Hok.
  - simpl. split; [done|]. split; [done|]. lia.
  - pose proof (registry_ok_setup s w Hs Hok) as Hok'.
    destruct (setup_logging_adds_handler s w Hs (proj1 Hok))
      as (Hr & _ & Hh).
    simpl. unfold bind.
    destruct (setup_logging s w) as [r w'] eqn:E. simpl in *. subst r.
    destruct (IH w' Hok') as (Hr' & Hok'' & Hlen).
    split; [done|]. split; [done|].
    rewrite Hlen, Hh, length_app. simpl. lia.
Qed.

(** C9. The logger factory is not idempotent.  After n calls with valid
    level names in a fresh process, the logger named [__main__] carries n
    handlers, all of them distinct objects; and one more call hands back
    the same logger with one more handler on its list, an object that was
    not on it before. *)
Theorem setup_logging_accumulates_handlers levels s :
  Forall valid_level levels → valid_level s →
  (setup_many levels initial_world).1 = Ret () ∧
  length (handlers_of (setup_many levels initial_world).2) = length levels ∧
  NoDup (h_id <$> handlers_of (setup_many levels initial_world).2) ∧
  (setup_logging s (setup_many levels initial_world).2).1 = Ret module_name ∧
  ∃ h,
    handlers_of (setup_logging s (setup_many levels initial_world).2).2 =
      handlers_of (setup_many levels initial_world).2 ++ [h] ∧
    h_id h ∉ h_id <$> handlers_of (setup_many levels initial_world).2.
Proof.
  intros Hl Hs.
  destruct (setup_many_handlers levels initial_world Hl registry_ok_initial)
    as (Hr & [Hids Hnd] & Hlen).
  destruct (setup_logging_adds_handler s _ Hs Hids) as (Hr' & _ & Hh).
  split; [done|]. split; [done|]. split; [done|]. split; [done|].
  eexists. split; [exact Hh|]. simpl. by apply id_not_allocated.
Qed.

(** C10. The logger factory takes level names without regard to case: a
    name configures exactly what its upper-case form configures, two names
    that differ only in case configure the same, and a name whose
    upper-case form is a level sets the logger to that level; so "info"
    and "Debug" do what "INFO" and "DEBUG" do. *)
Theorem setup_logging_ignores_case s w :
  setup_logging s w = setup_logging (upper s) w ∧
  (∀ s', upper s' = upper s → setup_logging s' w = setup_logging s w) ∧
  (∀ lvl, nameToLevel (upper s) = Some lvl →
     (setup_logging s w).1 = Ret module_name ∧
     lg_level (the_logger module_name (setup_logging s w).2) = lvl) ∧
  setup_logging "info" w = setup_logging "INFO" w ∧
  setup_logging "Debug" w = setup_logging "DEBUG" w ∧
  lg_level (the_logger module_name (setup_logging "info" w).2) = INFO ∧
  lg_level (the_logger module_name (setup_logging "Debug" w).2) = DEBUG.
Proof.
  assert (∀ a b, upper a = upper b → setup_logging a w = setup_logging b w)
    as Hcase by (intros a b Hab; unfold setup_logging; by rewrite Hab).
  assert (∀ a lvl, nameToLevel (upper a) = Some lvl →
            (setup_logging a w).1 = Ret module_name ∧
            lg_level (the_logger module_name (setup_logging a w).2) = lvl)
    as Hlevel.
  { intros a lvl Ha.
    destruct (setup_logging_valid a w lvl Ha) as (w' & -> & Hlg & _).
    simpl. by rewrite Hlg. }
  split; [apply Hcase; by rewrite upper_idem|].
  split; [intros s' Hs'; by apply Hcase|].
  split; [apply Hlevel|].
  split; [by apply Hcase|]. split; [by apply Hcase|].
  split; [by apply (Hlevel "info")|by apply (Hlevel "Debug")].
Qed.

(** * The statements at the sample invocations *)

(** The end-to-end runs of the specification: create with a facade that
    succeeds, and list over a provider that yields groups. *)
Example create_end_to_end :
  (main sdk_ok args_create initial_world).1 = Raise (SystemExit 0) ∧
  ln_message <$> w_stdout (main sdk_ok args_create initial_world).2 =
    ["Creating resource group: rg1";
     "Resource group created successfully: rg1";
     "Resource group creation completed successfully"].
Proof. split; by vm_compute. Qed.

Example list_end_to_end :
  (main sdk_ok args_list initial_world).1 = Raise (SystemExit 0) ∧
  ln_message <$> w_stdout (main sdk_ok args_list initial_world).2 =
    ["Listing resource groups"; "Found 2 resource groups";
     "Resource Groups:"; "  - rg1 (eastus)"; "  - rg2 (westus)"].
Proof. split; by vm_compute. Qed.

(** A command line parses to the namespace [main] then runs on. *)
Example parse_list_command_line :
  parse_args cli_list initial_world = (Ret args_list, initial_world) ∧
  (main_cli sdk_ok cli_list initial_world).1 = Raise (SystemExit 0).
Proof. split; by vm_compute. Qed.

(** Two calls of the factory: every message is then written twice. *)
Example duplicated_lines :
  ln_message <$>
    w_stdout ((setup_many ["INFO"; "INFO"] ;;;
               logger_error module_name "boom") initial_world).2 =
    ["boom"; "boom"].
Proof. by vm_compute. Qed.

(** C1 at [args_create] with an SDK that succeeds. *)
Lemma create_called_with_environment_tags_witness :
  setup_logging (log_level args_create) initial_world =
    (Ret module_name, world_after_setup) ∧
  AzureResourceManager_init sdk_ok (subscription_id args_create) module_name
    world_after_setup = (Ret arm_S, world_after_init sdk_ok) ∧
  action args_create = "create" ∧
  resource_group args_create = Some "rg1" ∧ "rg1" ≠ "" ∧
  ∃ tags rest,
    w_trace (main sdk_ok args_create initial_world).2 =
      w_trace initial_world ++
        [EvCredential; EvClient "S";
         EvCallCreate "rg1" "eastus" (Some tags)] ++ rest ∧
    Forall (λ ev, is_call_create ev = false) rest ∧
    ∀ k, tags !! k =
      if bool_decide (k = "Environment") then Some "prod"
      else if bool_decide (k = "ManagedBy") then Some "DevOps-Automation"
      else if bool_decide (k = "Project") then Some "DevOps-Tools"
      else None.
Proof.
  assert (setup_logging (log_level args_create) initial_world =
            (Ret module_name, world_after_setup)) as Hs
    by (vm_compute; reflexivity).
  assert (AzureResourceManager_init sdk_ok (subscription_id args_create)
            module_name world_after_setup =
            (Ret arm_S, world_after_init sdk_ok)) as Hi
    by (vm_compute; reflexivity).
  split; [exact Hs|]. split; [exact Hi|].
  split; [reflexivity|]. split; [reflexivity|]. split; [discriminate|].
  apply (create_called_with_environment_tags sdk_ok args_create initial_world
           module_name world_after_setup arm_S (world_after_init sdk_ok)
           Hs Hi "rg1"); [reflexivity|reflexivity|discriminate].
Defined.

(** C3 at [args_create]: the SDK succeeds, the SDK is refused. *)
Lemma create_exit_status_witness :
  setup_logging (log_level args_create) initial_world =
    (Ret module_name, world_after_setup) ∧
  AzureResourceManager_init sdk_ok (subscription_id args_create) module_name
    world_after_setup = (Ret arm_S, world_after_init sdk_ok) ∧
  action args_create = "create" ∧
  resource_group args_create = Some "rg1" ∧ "rg1" ≠ "" ∧
  (main sdk_ok args_create initial_world).1 = Raise (SystemExit 0) ∧
  (main sdk_failing args_create initial_world).1 = Raise (SystemExit 1).
Proof.
  assert (∀ P, (P = sdk_ok ∨ P = sdk_failing) →
            setup_logging (log_level args_create) initial_world =
              (Ret module_name, world_after_setup) ∧
            AzureResourceManager_init P (subscription_id args_create)
              module_name world_after_setup =
              (Ret arm_S, world_after_init P)) as Hrun
    by (intros P [-> | ->]; split; vm_compute; reflexivity).
  destruct (Hrun sdk_ok (or_introl eq_refl)) as [Hs Hi].
  destruct (Hrun sdk_failing (or_intror eq_refl)) as [_ Hi'].
  split; [exact Hs|]. split; [exact Hi|].
  split; [reflexivity|]. split; [reflexivity|]. split; [discriminate|].
  split.
  - refine (proj1 (create_exit_status sdk_ok args_create initial_world
      module_name world_after_setup arm_S (world_after_init sdk_ok) Hs Hi
      "rg1" true
      (create_resource_group sdk_ok arm_S "rg1" "eastus"
         (Some (environment_tags "prod")) (world_after_init sdk_ok)).2
      eq_refl eq_refl _ _)); [discriminate|vm_compute; reflexivity].
  - refine (proj1 (create_exit_status sdk_failing args_create initial_world
      module_name world_after_setup arm_S (world_after_init sdk_failing)
      Hs Hi' "rg1" false
      (create_resource_group sdk_failing arm_S "rg1" "eastus"
         (Some (environment_tags "prod")) (world_after_init sdk_failing)).2
      eq_refl eq_refl _ _)); [discriminate|vm_compute; reflexivity].
Defined.

(** C4 at [args_create_unnamed]. *)
Lemma create_without_name_exits_1_witness :
  setup_logging (log_level args_create_unnamed) initial_world =
    (Ret module_name, world_after_setup) ∧
  AzureResourceManager_init sdk_ok (subscription_id args_create_unnamed)
    module_name world_after_setup = (Ret arm_S, world_after_init sdk_ok) ∧
  action args_create_unnamed = "create" ∧
  resource_group args_create_unnamed = None ∧
  (main sdk_ok args_create_unnamed initial_world).1 = Raise (SystemExit 1) ∧
  w_trace (main sdk_ok args_create_unnamed initial_world).2 =
    [EvCredential; EvClient "S";
     EvLog ERROR "Resource group name is required for create action"].
Proof.
  assert (setup_logging (log_level args_create_unnamed) initial_world =
            (Ret module_name, world_after_setup)) as Hs
    by (vm_compute; reflexivity).
  assert (AzureResourceManager_init sdk_ok
            (subscription_id args_create_unnamed) module_name
            world_after_setup = (Ret arm_S, world_after_init sdk_ok)) as Hi
    by (vm_compute; reflexivity).
  split; [exact Hs|]. split; [exact Hi|].
  split; [reflexivity|]. split; [reflexivity|].
  exact (create_without_name_exits_1 sdk_ok args_create_unnamed initial_world
           module_name world_after_setup arm_S (world_after_init sdk_ok)
           Hs Hi eq_refl (or_introl eq_refl)).
Defined.

(** C5 at [args_list]: two groups, no group, a listing that fails. *)
Lemma list_exit_status_witness :
  setup_logging (log_level args_list) initial_world =
    (Ret module_name, world_after_setup) ∧
  action args_list = "list" ∧
  (main sdk_ok args_list initial_world).1 = Raise (SystemExit 0) ∧
  (main sdk_empty args_list initial_world).1 = Raise (SystemExit 0) ∧
  w_trace (main sdk_empty args_list initial_world).2 =
    [EvCredential; EvClient "S"; EvCallList;
     EvLog INFO "Listing resource groups"; EvListGroups;
     EvLog INFO "Found 0 resource groups"] ++
    [EvLog INFO "Resource Groups:"] ∧
  (main sdk_failing args_list initial_world).1 = Raise (SystemExit 1).
Proof.
  assert (∀ P, (P = sdk_ok ∨ P = sdk_empty ∨ P = sdk_failing) →
            setup_logging (log_level args_list) initial_world =
              (Ret module_name, world_after_setup) ∧
            AzureResourceManager_init P (subscription_id args_list)
              module_name world_after_setup =
              (Ret arm_S, world_after_init P)) as Hrun
    by (intros P [-> | [-> | ->]]; split; vm_compute; reflexivity).
  destruct (Hrun sdk_ok (or_introl eq_refl)) as [Hs Hi].
  destruct (Hrun sdk_empty (or_intror (or_introl eq_refl))) as [_ Hi0].
  destruct (Hrun sdk_failing (or_intror (or_intror eq_refl))) as [_ Hi'].
  split; [exact Hs|]. split; [reflexivity|].
  split; [|split; [|split]].
  - refine (proj1 (list_exit_status sdk_ok args_list initial_world
      module_name world_after_setup arm_S (world_after_init sdk_ok) Hs Hi
      (Some (map record_of (list_groups sdk_ok).1))
      (list_resource_groups sdk_ok arm_S (world_after_init sdk_ok)).2
      eq_refl _)). vm_compute; reflexivity.
  - refine (proj1 (list_exit_status sdk_empty args_list initial_world
      module_name world_after_setup arm_S (world_after_init sdk_empty) Hs Hi0
      (Some [])
      (list_resource_groups sdk_empty arm_S (world_after_init sdk_empty)).2
      eq_refl _)). vm_compute; reflexivity.
  - refine (proj2 (proj2 (list_exit_status sdk_empty args_list initial_world
      module_name world_after_setup arm_S (world_after_init sdk_empty) Hs Hi0
      (Some [])
      (list_resource_groups sdk_empty arm_S (world_after_init sdk_empty)).2
      eq_refl _)) eq_refl). vm_compute; reflexivity.
  - refine (proj1 (list_exit_status sdk_failing args_list initial_world
      module_name world_after_setup arm_S (world_after_init sdk_failing)
      Hs Hi' None
      (list_resource_groups sdk_failing arm_S (world_after_init sdk_failing)).2
      eq_refl _)). vm_compute; reflexivity.
Defined.

(** C2, amended, at an SDK that refuses the request. *)
Lemma create_failure_caught_witness :
  create_or_update sdk_failing "rg1"
    {| p_location := "eastus"; p_tags := tags_or_empty None |} =
    inl (AzureError "denied") ∧
  is_Exception (AzureError "denied") = true ∧
  (create_resource_group sdk_failing arm_S "rg1" "eastus" None
     initial_world).1 = Ret false ∧
  w_trace (create_resource_group sdk_failing arm_S "rg1" "eastus" None
             initial_world).2 =
    w_trace initial_world ++
      [EvCallCreate "rg1" "eastus" None;
       EvLog INFO "Creating resource group: rg1";
       EvCreateOrUpdate "rg1"
         {| p_location := "eastus"; p_tags := tags_or_empty None |};
       EvLog ERROR "Azure error creating resource group: denied"].
Proof.
  split; [reflexivity|]. split; [reflexivity|].
  exact (proj1 (create_failure_caught sdk_failing arm_S "rg1" "eastus" None
                  initial_world (AzureError "denied") eq_refl) eq_refl).
Defined.

(** C7: an interrupted create call, a listing that fails. *)
Lemma top_level_guard_witness :
  valid_level (log_level args_create) ∧
  raises_in_phase sdk_interrupted args_create KeyboardInterrupt ∧
  raises_in_phase sdk_failing args_list (OtherException "connection reset") ∧
  (main sdk_interrupted args_create initial_world).1 =
    Raise (SystemExit 130) ∧
  (main sdk_failing args_list initial_world).1 = Raise (SystemExit 1).
Proof.
  assert (valid_level "INFO") as Hv by (by exists INFO).
  assert (raises_in_phase sdk_interrupted args_create KeyboardInterrupt)
    as Hk.
  { right. right. split; [reflexivity|]. split; [reflexivity|]. left.
    split; [reflexivity|]. exists "rg1".
    split; [reflexivity|]. split; [discriminate|reflexivity]. }
  assert (raises_in_phase sdk_failing args_list
            (OtherException "connection reset")) as He.
  { right. right. split; [reflexivity|]. split; [reflexivity|]. right.
    split; reflexivity. }
  split; [exact Hv|]. split; [exact Hk|]. split; [exact He|]. split.
  - exact (proj1 (proj1 (top_level_guard sdk_interrupted args_create
                           initial_world KeyboardInterrupt Hv Hk) eq_refl)).
  - exact (proj1 (proj2 (top_level_guard sdk_failing args_list
                           initial_world _ Hv He) eq_refl)).
Defined.

(** C9: two calls, then a third. *)
Lemma setup_logging_accumulates_handlers_witness :
  Forall valid_level ["INFO"; "debug"] ∧ valid_level "Warning" ∧
  length (handlers_of (setup_many ["INFO"; "debug"] initial_world).2) = 2 ∧
  length (handlers_of
            (setup_logging "Warning"
               (setup_many ["INFO"; "debug"] initial_world).2).2) = 3.
Proof.
  assert (Forall valid_level ["INFO"; "debug"]) as Hl
    by (repeat constructor; by eexists).
  assert (valid_level "Warning") as Hs by (by eexists).
  split; [exact Hl|]. split; [exact Hs|].
  destruct (setup_logging_accumulates_handlers ["INFO"; "debug"] "Warning"
              Hl Hs) as (_ & Hlen & _ & _ & h & Hh & _).
  split; [exact Hlen|]. rewrite Hh, length_app, Hlen. reflexivity.
Defined.

(** * End-to-end runs *)

Lemma tags_or_empty_eq tags : tags_or_empty tags = default ∅ tags.
Proof. rewrite tags_or_empty_default. by destruct tags. Qed.

Lemma main_when_try_raises_eq P args w logger wa e w' :
  setup_logging (log_level args) w = (Ret logger, wa) →
  main_try P args logger wa = (Raise e, w') →
  (main P args w).1 = guard_result e ∧
  w_trace (main P args w).2 = w_trace w' ++ guard_events e.
Proof.
  intros Hs Ht. rewrite (main_guard _ _ _ _ _ Hs), Ht.
  unfold guard_result, guard_events.
  destruct (is_KeyboardInterrupt e); [simpl; by rewrite trace_logged|].
  destruct (is_Exception e); simpl; [by rewrite trace_logged|].
  by rewrite app_nil_r.
Qed.

Lemma init_raises_trace P subscription logger w e :
  new_credential P = Some e ∨
  (new_credential P = None ∧ new_client P subscription = Some e) →
  ∃ w', AzureResourceManager_init P subscription logger w = (Raise e, w') ∧
    w_trace w' = w_trace w ++ init_events P subscription.
Proof.
  unfold AzureResourceManager_init, DefaultAzureCredential,
    ResourceManagementClient, init_events.
  intros [Hc|[Hc Hk]]; autorewrite with py; rewrite Hc; autorewrite with py.
  - eexists. split; [done|]. by trace_norm.
  - rewrite Hk. autorewrite with py. eexists. split; [done|]. by trace_norm.
Qed.

Lemma main_start P args w :
  valid_level (log_level args) →
  new_credential P = None → new_client P (subscription_id args) = None →
  ∃ wa w1,
    setup_logging (log_level args) w = (Ret module_name, wa) ∧
    AzureResourceManager_init P (subscription_id args) module_name wa =
      (Ret {| arm_subscription_id := subscription_id args;
              arm_logger := module_name |}, w1) ∧
    w_trace w1 = w_trace w ++ [EvCredential; EvClient (subscription_id args)].
Proof.
  intros [lvl Hlvl] Hc Hk.
  destruct (setup_logging_valid _ w lvl Hlvl) as (wa & Hs & _ & _ & _ & Htr).
  destruct (init_returns P (subscription_id args) module_name wa Hc Hk)
    as (w1 & Hi & Htr1).
  exists wa, w1. split; [done|]. split; [done|]. by rewrite Htr1, Htr.
Qed.

Lemma main_init_raises P args w e :
  valid_level (log_level args) →
  new_credential P = Some e ∨
  (new_credential P = None ∧ new_client P (subscription_id args) = Some e) →
  (main P args w).1 = guard_result e ∧
  w_trace (main P args w).2 =
    w_trace w ++ init_events P (subscription_id args) ++ guard_events e.
Proof.
  intros [lvl Hlvl] Hfail.
  destruct (setup_logging_valid _ w lvl Hlvl) as (wa & Hs & _ & _ & _ & Htr).
  destruct (init_raises_trace P (subscription_id args) module_name wa e Hfail)
    as (w' & Hi & Htr').
  assert (main_try P args module_name wa = (Raise e, w')) as Ht
    by (unfold main_try; by rewrite (bind_Raise _ _ _ _ _ Hi)).
  destruct (main_when_try_raises_eq _ _ _ _ _ _ _ Hs Ht) as [Hr Hev].
  split; [done|]. by rewrite Hev, Htr', Htr, <- app_assoc.
Qed.

Lemma main_create_unnamed P args w :
  valid_level (log_level args) →
  new_credential P = None → new_client P (subscription_id args) = None →
  action args = "create" →
  resource_group args = None ∨ resource_group args = Some "" →
  (main P args w).1 = Raise (SystemExit 1) ∧
  w_trace (main P args w).2 =
    w_trace w ++
      [EvCredential; EvClient (subscription_id args);
       EvLog ERROR "Resource group name is required for create action"].
Proof.
  intros Hv Hc Hk Ha Hrg.
  destruct (main_start P args w Hv Hc Hk) as (wa & w1 & Hs & Hi & Htr).
  rewrite (main_guard _ _ _ _ _ Hs). unfold main_try.
  rewrite (bind_Ret _ _ _ _ _ Hi).
  rewrite bool_decide_eq_true_2 by done.
  destruct Hrg as [-> | ->]; [|rewrite bool_decide_eq_true_2 by done];
    autorewrite with py; simpl;
    by rewrite trace_logged, Htr, <- app_assoc.
Qed.

Lemma main_create_run P args w name :
  valid_level (log_level args) →
  new_credential P = None → new_client P (subscription_id args) = None →
  action args = "create" → resource_group args = Some name → name ≠ "" →
  match create_or_update P name
          {| p_location := location args;
             p_tags := environment_tags (environment args) |} with
  | inr r =>
      (main P args w).1 = Raise (SystemExit 0) ∧
      w_trace (main P args w).2 =
        w_trace w ++ create_events args name ++
          [EvLog INFO ("Resource group created successfully: " +:+ rg_name r);
           EvLog INFO "Resource group creation completed successfully"]
  | inl e =>
      if is_Exception e then
        (main P args w).1 = Raise (SystemExit 1) ∧
        w_trace (main P args w).2 =
          w_trace w ++ create_events args name ++
            [EvLog ERROR
               ((if is_AzureError e
                 then "Azure error creating resource group: "
                 else "Unexpected error: ") +:+ exn_str e);
             EvLog ERROR "Resource group creation failed"]
      else
        (main P args w).1 = guard_result e ∧
        w_trace (main P args w).2 =
          w_trace w ++ create_events args name ++ guard_events e
  end.
Proof.
  intros Hv Hc Hk Ha Hrg Hne.
  destruct (main_start P args w Hv Hc Hk) as (wa & w1 & Hs & Hi & Htr).
  set (arm := {| arm_subscription_id := subscription_id args;
                 arm_logger := module_name |}) in *.
  destruct (create_or_update P name _) as [e|r] eqn:Hp.
  - assert (create_or_update P name
        {| p_location := location args;
           p_tags := tags_or_empty
                       (Some (environment_tags (environment args))) |}
        = inl e) as Hp' by by rewrite tags_or_empty_default.
    destruct (is_Exception e) eqn:He.
    + destruct (create_returns_false P arm name (location args) _ w1 _ Hp' He)
        as (w2 & Hcr & Htr2).
      rewrite tags_or_empty_default in Htr2.
      rewrite (main_create_returns P args w _ _ _ _ Hs Hi name false w2
                 Ha Hrg Hne Hcr). simpl.
      split; [done|]. rewrite trace_logged, Htr2, Htr.
      unfold create_events. by rewrite <- !app_assoc.
    + destruct (create_propagates P arm name (location args) _ w1 _ Hp' He)
        as (w2 & Hcr & Htr2).
      rewrite tags_or_empty_default in Htr2.
      assert (main_try P args module_name wa = (Raise e, w2)) as Ht.
      { rewrite (main_try_create _ _ _ _ _ _ Hi name Ha Hrg Hne).
        by rewrite (bind_Raise _ _ _ _ _ Hcr). }
      destruct (main_when_try_raises_eq _ _ _ _ _ _ _ Hs Ht) as [Hr Hev].
      split; [done|]. rewrite Hev, Htr2, Htr.
      unfold create_events. by rewrite <- !app_assoc.
  - assert (create_or_update P name
        {| p_location := location args;
           p_tags := tags_or_empty
                       (Some (environment_tags (environment args))) |}
        = inr r) as Hp' by by rewrite tags_or_empty_default.
    destruct (create_returns_true P arm name (location args) _ w1 _ Hp')
      as (w2 & Hcr & Htr2).
    rewrite tags_or_empty_default in Htr2.
    rewrite (main_create_returns P args w _ _ _ _ Hs Hi name true w2
               Ha Hrg Hne Hcr). simpl.
    split; [done|]. rewrite trace_logged, Htr2, Htr.
    unfold create_events. by rewrite <- !app_assoc.
Qed.

Lemma main_list_run P args w :
  valid_level (log_level args) →
  new_credential P = None → new_client P (subscription_id args) = None →
  action args = "list" →
  match (list_groups P).2 with
  | None =>
      (main P args w).1 = Raise (SystemExit 0) ∧
      w_trace (main P args w).2 =
        w_trace w ++ list_events args ++
          [EvLog INFO ("Found " +:+ pretty (length (list_groups P).1) +:+
                       " resource groups");
           EvLog INFO "Resource Groups:"] ++
          map (λ g, EvLog INFO ("  - " +:+ rg_name g +:+ " (" +:+
                                rg_location g +:+ ")")) (list_groups P).1
  | Some e =>
      if is_Exception e then
        (main P args w).1 = Raise (SystemExit 1) ∧
        w_trace (main P args w).2 =
          w_trace w ++ list_events args ++
            [EvLog ERROR
               ((if is_AzureError e
                 then "Azure error listing resource groups: "
                 else "Unexpected error: ") +:+ exn_str e);
             EvLog ERROR "Failed to list resource groups"]
      else
        (main P args w).1 = guard_result e ∧
        w_trace (main P args w).2 =
          w_trace w ++ list_events args ++ guard_events e
  end.
Proof.
  intros Hv Hc Hk Ha.
  destruct (main_start P args w Hv Hc Hk) as (wa & w1 & Hs & Hi & Htr).
  set (arm := {| arm_subscription_id := subscription_id args;
                 arm_logger := module_name |}) in *.
  destruct (list_groups P) as [items [e|]] eqn:Hl; cbn [fst snd].
  - destruct (is_Exception e) eqn:He.
    + destruct (list_returns_None P arm w1 items e Hl He)
        as (w2 & Hls & Htr2).
      rewrite (main_list_returns P args w _ _ _ _ Hs Hi None w2 Ha Hls).
      simpl. split; [done|]. rewrite trace_logged, Htr2, Htr.
      unfold list_events. by rewrite <- !app_assoc.
    + destruct (list_propagates P arm w1 items e Hl He)
        as (w2 & Hls & Htr2).
      assert (main_try P args module_name wa = (Raise e, w2)) as Ht.
      { rewrite (main_try_list _ _ _ _ _ _ Hi Ha).
        by rewrite (bind_Raise _ _ _ _ _ Hls). }
      destruct (main_when_try_raises_eq _ _ _ _ _ _ _ Hs Ht) as [Hr Hev].
      split; [done|]. rewrite Hev, Htr2, Htr.
      unfold list_events. by rewrite <- !app_assoc.
  - destruct (list_returns_groups P arm w1 items Hl) as (w2 & Hls & Htr2).
    rewrite (main_list_returns P args w _ _ _ _ Hs Hi _ w2 Ha Hls).
    destruct (log_groups_eq module_name (map record_of items)
                (logged module_name INFO "Resource Groups:" w2))
      as (w3 & Hg & Htr3).
    rewrite Hg. simpl. split; [done|].
    rewrite Htr3, trace_logged, Htr2, Htr, map_map.
    unfold list_events. by rewrite <- !app_assoc.
Qed.

(** ** What a run never does *)

Lemma guard_result_status e :
  is_SystemExit e = false →
  guard_result e = Raise (SystemExit 130) ∨
  guard_result e = Raise (SystemExit 1).
Proof. destruct e; simpl; intros; try discriminate; auto. Qed.

Lemma guard_events_logs e :
  Forall (λ ev, is_create_event ev = false ∧ is_list_event ev = false)
    (guard_events e).
Proof.
  unfold guard_events.
  destruct (is_KeyboardInterrupt e); [by repeat constructor|].
  destruct (is_Exception e); by repeat constructor.
Qed.

Lemma init_events_build P subscription :
  Forall (λ ev, is_create_event ev = false ∧ is_list_event ev = false)
    (init_events P subscription).
Proof.
  unfold init_events. destruct (new_credential P); by repeat constructor.
Qed.

Lemma main_invalid_level P args w :
  ¬ valid_level (log_level args) →
  w_trace (main P args w).2 = w_trace w.
Proof.
  intros Hv. destruct (nameToLevel (upper (log_level args))) eqn:E.
  { destruct Hv. by eexists. }
  destruct (setup_logging_invalid _ w E)
    as (e & w' & Hr & _ & _ & _ & _ & Htr).
  unfold main. by rewrite (bind_Raise _ _ _ _ _ Hr).
Qed.

Lemma valid_level_dec s : valid_level s ∨ ¬ valid_level s.
Proof.
  unfold valid_level. destruct (nameToLevel (upper s)); [left|right].
  - by eexists.
  - by intros [? ?].
Qed.

Lemma init_cases P subscription :
  (∃ e, new_credential P = Some e ∨
        (new_credential P = None ∧ new_client P subscription = Some e)) ∨
  (new_credential P = None ∧ new_client P subscription = None).
Proof.
  destruct (new_credential P) as [e|]; [left; exists e; by left|].
  destruct (new_client P subscription) as [e|]; [|by right].
  left. exists e. by right.
Qed.

Lemma resource_group_cases (args : Args) :
  (resource_group args = None ∨ resource_group args = Some "") ∨
  ∃ name, resource_group args = Some name ∧ name ≠ "".
Proof.
  destruct (resource_group args) as [name|]; [|by left; left].
  destruct (decide (name = "")) as [->|Hne]; [by left; right|].
  right. by exists name.
Qed.

(** * Further properties of the facade *)

(** X1. When the SDK call returns, [create_resource_group] returns [True]
    after one SDK call that carries the location and the tags it was given
    (the empty mapping when none were given), and logs the name of the
    group the SDK returned. *)
Theorem create_resource_group_success P self name location tags w r :
  create_or_update P name
    {| p_location := location; p_tags := default ∅ tags |} = inr r →
  (create_resource_group P self name location tags w).1 = Ret true ∧
  w_trace (create_resource_group P self name location tags w).2 =
    w_trace w ++
      [EvCallCreate name location tags;
       EvLog INFO ("Creating resource group: " +:+ name);
       EvCreateOrUpdate name
         {| p_location := location; p_tags := default ∅ tags |};
       EvLog INFO ("Resource group created successfully: " +:+ rg_name r)].
Proof.
  rewrite <- tags_or_empty_eq. intros Hp.
  by destruct (create_returns_true P self name location tags w r Hp)
    as (w' & -> & Htr).
Qed.

(** X2. [create_resource_group] never lets an [Exception] out: what it
    raises, if anything, is not an instance of [Exception].  And it returns
    [True] exactly when the SDK call returned. *)
Theorem create_resource_group_outcome P self name location tags w :
  (∀ e, (create_resource_group P self name location tags w).1 = Raise e →
        is_Exception e = false) ∧
  ((create_resource_group P self name location tags w).1 = Ret true ↔
   ∃ r, create_or_update P name
          {| p_location := location; p_tags := default ∅ tags |} = inr r).
Proof.
  rewrite <- tags_or_empty_eq.
  destruct (create_or_update P name _) as [e|r] eqn:Hp.
  - destruct (is_Exception e) eqn:He.
    + destruct (create_returns_false P self name location tags w e Hp He)
        as (w' & -> & _). simpl.
      split; [done|]. split; [done|]. by intros [r ?].
    + destruct (create_propagates P self name location tags w e Hp He)
        as (w' & -> & _). simpl.
      split; [intros e' ?; by simplify_eq|].
      split; [done|]. by intros [r ?].
  - destruct (create_returns_true P self name location tags w r Hp)
      as (w' & -> & _). simpl.
    split; [done|]. split; [by exists r|done].
Qed.

(** X3. [list_resource_groups] never lets an [Exception] out either: what
    it raises is the non-[Exception] that ended the listing.  It returns
    [None] exactly when the listing ended with an [Exception], whatever it
    had yielded before. *)
Theorem list_resource_groups_outcome P self w :
  (∀ e, (list_resource_groups P self w).1 = Raise e →
        is_Exception e = false ∧ (list_groups P).2 = Some e) ∧
  ((list_resource_groups P self w).1 = Ret None ↔
   ∃ e, (list_groups P).2 = Some e ∧ is_Exception e = true).
Proof.
  destruct (list_groups P) as [items [e|]] eqn:Hl; cbn [fst snd].
  - destruct (is_Exception e) eqn:He.
    + destruct (list_returns_None P self w items e Hl He) as (w' & -> & _).
      simpl. split; [done|]. split; [by exists e|done].
    + destruct (list_propagates P self w items e Hl He) as (w' & -> & _).
      simpl. split; [intros e' ?; by simplify_eq|].
      split; [done|]. intros (e' & ? & ?). simplify_eq. congruence.
  - destruct (list_returns_groups P self w items Hl) as (w' & -> & _).
    simpl. split; [done|]. split; [done|]. by intros (e' & ? & ?).
Qed.

(** X4. A listing that ends normally makes one SDK listing call and then
    logs the number of groups it yielded, which is the length of the list
    returned. *)
Theorem list_resource_groups_logs_count P self w items :
  list_groups P = (items, None) →
  (∃ groups, (list_resource_groups P self w).1 = Ret (Some groups) ∧
             length groups = length items) ∧
  w_trace (list_resource_groups P self w).2 =
    w_trace w ++
      [EvCallList; EvLog INFO "Listing resource groups"; EvListGroups;
       EvLog INFO ("Found " +:+ pretty (length items) +:+ " resource groups")].
Proof.
  intros Hl.
  destruct (list_returns_groups P self w items Hl) as (w' & -> & Htr).
  split; [|done]. eexists. split; [done|]. by rewrite length_map.
Qed.

(** * Further properties of [main] *)

(** X5. A create run from the command line to the SDK.  With a valid
    level, a facade that is built and a resource-group name, the SDK's
    [create_or_update] is called once, with the name, the --location value
    and the three tags.  When it returns, both the facade and [main] log
    the success and the status is 0; when it raises an [Exception], both
    log an error and the status is 1; when it is interrupted, the
    cancellation is logged and the status is 130. *)
Theorem main_create_end_to_end P args w name :
  valid_level (log_level args) →
  new_credential P = None → new_client P (subscription_id args) = None →
  action args = "create" → resource_group args = Some name → name ≠ "" →
  (∀ r, create_or_update P name
          {| p_location := location args;
             p_tags := environment_tags (environment args) |} = inr r →
     (main P args w).1 = Raise (SystemExit 0) ∧
     w_trace (main P args w).2 =
       w_trace w ++
         [EvCredential; EvClient (subscription_id args);
          EvCallCreate name (location args)
            (Some (environment_tags (environment args)));
          EvLog INFO ("Creating resource group: " +:+ name);
          EvCreateOrUpdate name
            {| p_location := location args;
               p_tags := environment_tags (environment args) |}] ++
         [EvLog INFO ("Resource group created successfully: " +:+ rg_name r);
          EvLog INFO "Resource group creation completed successfully"]) ∧
  (∀ e, create_or_update P name
          {| p_location := location args;
             p_tags := environment_tags (environment args) |} = inl e →
     is_Exception e = true →
     (main P args w).1 = Raise (SystemExit 1) ∧
     w_trace (main P args w).2 =
       w_trace w ++
         [EvCredential; EvClient (subscription_id args);
          EvCallCreate name (location args)
            (Some (environment_tags (environment args)));
          EvLog INFO ("Creating resource group: " +:+ name);
          EvCreateOrUpdate name
            {| p_location := location args;
               p_tags := environment_tags (environment args) |}] ++
         [EvLog ERROR
            ((if is_AzureError e then "Azure error creating resource group: "
              else "Unexpected error: ") +:+ exn_str e);
          EvLog ERROR "Resource group creation failed"]) ∧
  (create_or_update P name
     {| p_location := location args;
        p_tags := environment_tags (environment args) |} =
     inl KeyboardInterrupt →
   (main P args w).1 = Raise (SystemExit 130) ∧
   w_trace (main P args w).2 =
     w_trace w ++
       [EvCredential; EvClient (subscription_id args);
        EvCallCreate name (location args)
          (Some (environment_tags (environment args)));
        EvLog INFO ("Creating resource group: " +:+ name);
        EvCreateOrUpdate name
          {| p_location := location args;
             p_tags := environment_tags (environment args) |}] ++
       [EvLog INFO "Operation cancelled by user"]).
Proof.
  intros Hv Hc Hk Ha Hrg Hne.
  pose proof (main_create_run P args w name Hv Hc Hk Ha Hrg Hne) as Hrun.
  split; [|split].
  - intros r Hp. by rewrite Hp in Hrun.
  - intros e Hp He. by rewrite Hp, He in Hrun.
  - intros Hp. by rewrite Hp in Hrun.
Qed.

(** X6. A list run from the command line to the SDK.  With a valid level
    and a facade that is built, one SDK listing is made.  When it ends
    normally the count, the header and one line per group, with the name
    and location the SDK gave and in its order, are logged, and the status
    is 0; when it ends with an [Exception], both the facade and [main] log
    an error and the status is 1; when it is interrupted, the status is
    130. *)
Theorem main_list_end_to_end P args w items :
  valid_level (log_level args) →
  new_credential P = None → new_client P (subscription_id args) = None →
  action args = "list" →
  (list_groups P = (items, None) →
   (main P args w).1 = Raise (SystemExit 0) ∧
   w_trace (main P args w).2 =
     w_trace w ++
       [EvCredential; EvClient (subscription_id args); EvCallList;
        EvLog INFO "Listing resource groups"; EvListGroups] ++
       [EvLog INFO ("Found " +:+ pretty (length items) +:+
                    " resource groups");
        EvLog INFO "Resource Groups:"] ++
       map (λ g, EvLog INFO ("  - " +:+ rg_name g +:+ " (" +:+
                             rg_location g +:+ ")")) items) ∧
  (∀ e, list_groups P = (items, Some e) → is_Exception e = true →
     (main P args w).1 = Raise (SystemExit 1) ∧
     w_trace (main P args w).2 =
       w_trace w ++
         [EvCredential; EvClient (subscription_id args); EvCallList;
          EvLog INFO "Listing resource groups"; EvListGroups] ++
         [EvLog ERROR
            ((if is_AzureError e then "Azure error listing resource groups: "
              else "Unexpected error: ") +:+ exn_str e);
          EvLog ERROR "Failed to list resource groups"]) ∧
  (list_groups P = (items, Some KeyboardInterrupt) →
   (main P args w).1 = Raise (SystemExit 130) ∧
   w_trace (main P args w).2 =
     w_trace w ++
       [EvCredential; EvClient (subscription_id args); EvCallList;
        EvLog INFO "Listing resource groups"; EvListGroups] ++
       [EvLog INFO "Operation cancelled by user"]).
Proof.
  intros Hv Hc Hk Ha.
  pose proof (main_list_run P args w Hv Hc Hk Ha) as Hrun.
  split; [|split].
  - intros Hl. by rewrite Hl in Hrun.
  - intros e Hl He. rewrite Hl in Hrun. cbn [fst snd] in Hrun.
    by rewrite He in Hrun.
  - intros Hl. by rewrite Hl in Hrun.
Qed.

(** X7. When building the facade fails with an [Exception], [main] logs it
    as an unexpected error and ends with status 1 without trying any
    operation, whatever the action; and when it is the credential that
    fails, the client is never built. *)
Theorem main_construction_failure P args w e :
  valid_level (log_level args) → is_Exception e = true →
  (new_credential P = Some e →
   (main P args w).1 = Raise (SystemExit 1) ∧
   w_trace (main P args w).2 =
     w_trace w ++
       [EvCredential; EvLog ERROR ("Unexpected error: " +:+ exn_str e)]) ∧
  (new_credential P = None →
   new_client P (subscription_id args) = Some e →
   (main P args w).1 = Raise (SystemExit 1) ∧
   w_trace (main P args w).2 =
     w_trace w ++
       [EvCredential; EvClient (subscription_id args);
        EvLog ERROR ("Unexpected error: " +:+ exn_str e)]).
Proof.
  intros Hv He.
  assert (guard_result e = Raise (SystemExit 1)) as Hg
    by (unfold guard_result; by rewrite (Exception_not_interrupt e He), He).
  assert (guard_events e =
            [EvLog ERROR ("Unexpected error: " +:+ exn_str e)]) as Hev
    by (unfold guard_events; by rewrite (Exception_not_interrupt e He), He).
  split.
  - intros Hc.
    destruct (main_init_raises P args w e Hv (or_introl Hc)) as [Hr Htr].
    rewrite Hr, Htr, Hg, Hev. unfold init_events. by rewrite Hc.
  - intros Hc Hk.
    destruct (main_init_raises P args w e Hv (or_intror (conj Hc Hk)))
      as [Hr Htr].
    rewrite Hr, Htr, Hg, Hev. unfold init_events. by rewrite Hc.
Qed.

(** X8. The exit statuses of the script.  With a valid level, an action of
    create or list, and an SDK that does not raise [SystemExit] itself,
    [main] always ends in [sys.exit], with status 0, 1 or 130. *)
Theorem main_exit_status_range P args w :
  valid_level (log_level args) → raises_no_exit P →
  action args = "create" ∨ action args = "list" →
  ∃ code, (main P args w).1 = Raise (SystemExit code) ∧
          (code = 0 ∨ code = 1 ∨ code = 130)%Z.
Proof.
  intros Hv (Hxc & Hxk & Hxp & Hxl) Hact.
  assert (∀ e, is_SystemExit e = false →
            ∃ code, guard_result e = Raise (SystemExit code) ∧
                    (code = 0 ∨ code = 1 ∨ code = 130)%Z) as Hguard.
  { intros e He. destruct (guard_result_status e He) as [-> | ->];
      eexists; (split; [done|]); auto. }
  destruct (init_cases P (subscription_id args)) as [[e Hfail] | [Hc Hk]].
  - destruct (main_init_raises P args w e Hv Hfail) as [-> _].
    apply Hguard. destruct Hfail as [Hc | [_ Hk]]; [by apply Hxc|].
    by apply (Hxk (subscription_id args)).
  - destruct Hact as [Ha | Ha].
    + destruct (resource_group_cases args) as [Hrg | (name & Hrg & Hne)].
      * destruct (main_create_unnamed P args w Hv Hc Hk Ha Hrg) as [-> _].
        exists 1%Z. auto.
      * pose proof (main_create_run P args w name Hv Hc Hk Ha Hrg Hne)
          as Hrun.
        destruct (create_or_update P name _) as [e|r] eqn:Hp.
        -- destruct (is_Exception e).
           ++ destruct Hrun as [-> _]. exists 1%Z. auto.
           ++ destruct Hrun as [-> _]. apply Hguard. by eapply Hxp.
        -- destruct Hrun as [-> _]. exists 0%Z. auto.
    + pose proof (main_list_run P args w Hv Hc Hk Ha) as Hrun.
      destruct ((list_groups P).2) as [e|] eqn:Hl.
      * destruct (is_Exception e).
        -- destruct Hrun as [-> _]. exists 1%Z. auto.
        -- destruct Hrun as [-> _]. apply Hguard. by apply Hxl.
      * destruct Hrun as [-> _]. exists 0%Z. auto.
Qed.

(** X9. One operation per run.  Whatever the SDK does and whatever the
    level name, a run with action=list makes no create call, of the facade
    or of the SDK, and a run with action=create makes no list call. *)
Theorem main_single_operation P args w :
  (action args = "list" →
   ∃ evs, w_trace (main P args w).2 = w_trace w ++ evs ∧
          Forall (λ ev, is_create_event ev = false) evs) ∧
  (action args = "create" →
   ∃ evs, w_trace (main P args w).2 = w_trace w ++ evs ∧
          Forall (λ ev, is_list_event ev = false) evs).
Proof.
  assert (∀ e, Forall (λ ev, is_create_event ev = false) (guard_events e))
    as Hgc.
  { intros e. eapply Forall_impl; [apply guard_events_logs|]. by intros ? []. }
  assert (∀ e, Forall (λ ev, is_list_event ev = false) (guard_events e))
    as Hgl.
  { intros e. eapply Forall_impl; [apply guard_events_logs|]. by intros ? []. }
  assert (Forall (λ ev, is_create_event ev = false)
            (init_events P (subscription_id args))) as Hic.
  { eapply Forall_impl; [apply init_events_build|]. by intros ? []. }
  assert (Forall (λ ev, is_list_event ev = false)
            (init_events P (subscription_id args))) as Hil.
  { eapply Forall_impl; [apply init_events_build|]. by intros ? []. }
  split; intros Ha.
  - destruct (valid_level_dec (log_level args)) as [Hv | Hv];
      [|exists []; rewrite app_nil_r;
        split; [by apply main_invalid_level|constructor]].
    destruct (init_cases P (subscription_id args)) as [[e Hfail] | [Hc Hk]].
    { destruct (main_init_raises P args w e Hv Hfail) as [_ ->].
      eexists. split; [done|]. by apply Forall_app. }
    pose proof (main_list_run P args w Hv Hc Hk Ha) as Hrun.
    destruct ((list_groups P).2) as [e|].
    + destruct (is_Exception e); destruct Hrun as [_ ->];
        (eexists; split; [done|]).
      * by repeat constructor.
      * apply Forall_app. split; [by repeat constructor|done].
    + destruct Hrun as [_ ->]. eexists. split; [done|].
      apply Forall_app. split; [by repeat constructor|].
      apply Forall_app. split; [by repeat constructor|].
      apply Forall_fmap. by apply Forall_true.
  - destruct (valid_level_dec (log_level args)) as [Hv | Hv];
      [|exists []; rewrite app_nil_r;
        split; [by apply main_invalid_level|constructor]].
    destruct (init_cases P (subscription_id args)) as [[e Hfail] | [Hc Hk]].
    { destruct (main_init_raises P args w e Hv Hfail) as [_ ->].
      eexists. split; [done|]. by apply Forall_app. }
    destruct (resource_group_cases args) as [Hrg | (name & Hrg & Hne)].
    { destruct (main_create_unnamed P args w Hv Hc Hk Ha Hrg) as [_ ->].
      eexists. split; [done|]. by repeat constructor. }
    pose proof (main_create_run P args w name Hv Hc Hk Ha Hrg Hne) as Hrun.
    destruct (create_or_update P name _) as [e|r].
    + destruct (is_Exception e); destruct Hrun as [_ ->];
        (eexists; split; [done|]).
      * by repeat constructor.
      * apply Forall_app. split; [by repeat constructor|done].
    + destruct Hrun as [_ ->]. eexists. split; [done|].
      by repeat constructor.
Qed.

(** * Further properties of the logger factory *)

Lemma stdout_logged logger level msg w :
  w_stdout (logged logger level msg w) =
    w_stdout w ++
      if bool_decide (getEffectiveLevel (the_logger logger w) ≤ level)%Z then
        omap (λ h, match h_stream h with
                   | Stdout => Some {| ln_name := logger;
                                       ln_levelname := levelName level;
                                       ln_message := msg |}
                   | Stderr => None
                   end) (lg_handlers (the_logger logger w))
      else [].
Proof.
  unfold logged, log, bind, emit. simpl.
  change (the_logger logger (record_event (EvLog level msg) w))
    with (the_logger logger w).
  case_bool_decide; simpl; [done|]. by rewrite app_nil_r.
Qed.

Lemma omap_stdout_handlers (line : Line) hs :
  Forall (λ h, h_stream h = Stdout) hs →
  omap (λ h, match h_stream h with
             | Stdout => Some line
             | Stderr => None
             end) hs = replicate (length hs) line.
Proof.
  induction 1 as [|h hs Hh _ IH]; simpl; [done|].
  rewrite Hh. f_equal. exact IH.
Qed.

Lemma setup_many_stdout levels w :
  Forall valid_level levels → registry_ok w →
  Forall (λ h, h_stream h = Stdout) (handlers_of w) →
  Forall (λ h, h_stream h = Stdout) (handlers_of (setup_many levels w).2).
Proof.
  intros Hl. revert w. induction Hl as [|s levels Hs _ IH]; intros w Hok Hout.
  - done.
  - pose proof (registry_ok_setup s w Hs Hok) as Hok'.
    destruct (setup_logging_adds_handler s w Hs (proj1 Hok))
      as (Hr & _ & Hh).
    simpl. unfold bind.
    destruct (setup_logging s w) as [r w'] eqn:E. simpl in *. subst r.
    apply IH; [done|]. rewrite Hh. apply Forall_app. split; [done|].
    by repeat constructor.
Qed.

(** X10. Duplicated lines.  In a fresh process, after n calls of the logger
    factory with valid names and one more with a name of level [lvl] (not
    NOTSET), a message logged at level [l] is written to standard output
    n+1 times when [lvl ≤ l], and not at all otherwise: the last call
    decides the threshold, and every call adds a copy of each line. *)
Theorem log_after_setups levels s lvl l msg :
  Forall valid_level levels →
  nameToLevel (upper s) = Some lvl → lvl ≠ NOTSET →
  w_stdout
    (log module_name l msg
       (setup_logging s (setup_many levels initial_world).2).2).2 =
    w_stdout (setup_logging s (setup_many levels initial_world).2).2 ++
      if bool_decide (lvl ≤ l)%Z then
        replicate (S (length levels))
          {| ln_name := module_name; ln_levelname := levelName l;
             ln_message := msg |}
      else [].
Proof.
  intros Hl Hs Hne.
  destruct (setup_many_handlers levels initial_world Hl registry_ok_initial)
    as (_ & Hok & Hlen).
  pose proof (setup_many_stdout levels initial_world Hl registry_ok_initial
                (Forall_nil_2 _)) as Hout.
  destruct (setup_logging_valid s (setup_many levels initial_world).2 lvl Hs)
    as (w' & Hrun & Hlg & _).
  rewrite Hrun. cbn [snd].
  change (log module_name l msg w').2 with (logged module_name l msg w').
  rewrite stdout_logged, Hlg. unfold getEffectiveLevel.
  cbn [lg_level lg_handlers].
  rewrite (bool_decide_eq_false_2 (lvl = NOTSET)) by done.
  case_bool_decide; [|done].
  unfold handlers_after. rewrite handler_in_fresh by apply Hok.
  rewrite omap_stdout_handlers.
  - rewrite length_app, Hlen. simpl. by rewrite Nat.add_1_r.
  - apply Forall_app. split; [done|]. by repeat constructor.
Qed.

(** * The further properties at the sample invocations *)

(** X1 at an SDK that returns the group. *)
Lemma create_resource_group_success_witness :
  create_or_update sdk_ok "rg1"
    {| p_location := "eastus"; p_tags := default ∅ None |} =
    inr {| rg_name := "rg1"; rg_location := "eastus"; rg_tags := Some ∅ |} ∧
  (create_resource_group sdk_ok arm_S "rg1" "eastus" None
     initial_world).1 = Ret true.
Proof.
  split; [reflexivity|].
  exact (proj1 (create_resource_group_success sdk_ok arm_S "rg1" "eastus"
                  None initial_world _ eq_refl)).
Defined.

(** X4 at the SDK that yields two groups. *)
Lemma list_resource_groups_logs_count_witness :
  list_groups sdk_ok = ((list_groups sdk_ok).1, None) ∧
  w_trace (list_resource_groups sdk_ok arm_S initial_world).2 =
    w_trace initial_world ++
      [EvCallList; EvLog INFO "Listing resource groups"; EvListGroups;
       EvLog INFO ("Found " +:+ pretty (length (list_groups sdk_ok).1) +:+
                   " resource groups")].
Proof.
  split; [reflexivity|].
  exact (proj2 (list_resource_groups_logs_count sdk_ok arm_S initial_world
                  (list_groups sdk_ok).1 eq_refl)).
Defined.

(** X5 at [args_create] with an SDK that returns the group. *)
Lemma main_create_end_to_end_witness :
  valid_level (log_level args_create) ∧
  new_credential sdk_ok = None ∧
  new_client sdk_ok (subscription_id args_create) = None ∧
  action args_create = "create" ∧
  resource_group args_create = Some "rg1" ∧ "rg1" ≠ "" ∧
  (main sdk_ok args_create initial_world).1 = Raise (SystemExit 0).
Proof.
  assert (valid_level (log_level args_create)) as Hv by (by exists INFO).
  assert ("rg1" ≠ "") as Hne by discriminate.
  split; [exact Hv|]. split; [reflexivity|]. split; [reflexivity|].
  split; [reflexivity|]. split; [reflexivity|]. split; [exact Hne|].
  exact (proj1 (proj1 (main_create_end_to_end sdk_ok args_create
                         initial_world "rg1" Hv eq_refl eq_refl eq_refl
                         eq_refl Hne) _ eq_refl)).
Defined.

(** X6 at [args_list] with the SDK that yields two groups. *)
Lemma main_list_end_to_end_witness :
  valid_level (log_level args_list) ∧
  new_credential sdk_ok = None ∧
  new_client sdk_ok (subscription_id args_list) = None ∧
  action args_list = "list" ∧
  list_groups sdk_ok = ((list_groups sdk_ok).1, None) ∧
  (main sdk_ok args_list initial_world).1 = Raise (SystemExit 0).
Proof.
  assert (valid_level (log_level args_list)) as Hv by (by exists INFO).
  split; [exact Hv|]. split; [reflexivity|]. split; [reflexivity|].
  split; [reflexivity|]. split; [reflexivity|].
  exact (proj1 (proj1 (main_list_end_to_end sdk_ok args_list initial_world
                         (list_groups sdk_ok).1 Hv eq_refl eq_refl eq_refl)
                  eq_refl)).
Defined.

(** X7 at an SDK whose credential cannot be built. *)
Lemma main_construction_failure_witness :
  valid_level (log_level args_list) ∧
  is_Exception (OtherException "no credentials") = true ∧
  new_credential sdk_no_credential =
    Some (OtherException "no credentials") ∧
  (main sdk_no_credential args_list initial_world).1 =
    Raise (SystemExit 1) ∧
  w_trace (main sdk_no_credential args_list initial_world).2 =
    w_trace initial_world ++
      [EvCredential; EvLog ERROR "Unexpected error: no credentials"].
Proof.
  assert (valid_level (log_level args_list)) as Hv by (by exists INFO).
  split; [exact Hv|]. split; [reflexivity|]. split; [reflexivity|].
  exact (proj1 (main_construction_failure sdk_no_credential args_list
                  initial_world (OtherException "no credentials") Hv eq_refl)
           eq_refl).
Defined.

(** X8 at [args_create] with an SDK that returns the group. *)
Lemma main_exit_status_range_witness :
  valid_level (log_level args_create) ∧ raises_no_exit sdk_ok ∧
  (action args_create = "create" ∨ action args_create = "list") ∧
  ∃ code, (main sdk_ok args_create initial_world).1 =
            Raise (SystemExit code) ∧
          (code = 0 ∨ code = 1 ∨ code = 130)%Z.
Proof.
  assert (valid_level (log_level args_create)) as Hv by (by exists INFO).
  assert (raises_no_exit sdk_ok) as Hx.
  { split; [discriminate|]. split; [discriminate|].
    split; [discriminate|discriminate]. }
  split; [exact Hv|]. split; [exact Hx|].
  split; [left; reflexivity|].
  exact (main_exit_status_range sdk_ok args_create initial_world Hv Hx
           (or_introl eq_refl)).
Defined.

(** X10: two calls of the factory, then an error and an info message under
    the ERROR threshold. *)
Lemma log_after_setups_witness :
  Forall valid_level ["INFO"] ∧
  nameToLevel (upper "error") = Some ERROR ∧ ERROR ≠ NOTSET ∧
  ln_message <$>
    w_stdout (log module_name ERROR "boom"
                (setup_logging "error"
                   (setup_many ["INFO"] initial_world).2).2).2 =
    ["boom"; "boom"] ∧
  w_stdout (log module_name INFO "note"
              (setup_logging "error"
                 (setup_many ["INFO"] initial_world).2).2).2 = [].
Proof.
  assert (Forall valid_level ["INFO"]) as Hl
    by (repeat constructor; by eexists).
  assert (ERROR ≠ NOTSET) as Hne by discriminate.
  split; [exact Hl|]. split; [reflexivity|]. split; [exact Hne|]. split.
  - rewrite (log_after_setups ["INFO"] "error" ERROR ERROR "boom" Hl
               eq_refl Hne).
    by vm_compute.
  - rewrite (log_after_setups ["INFO"] "error" ERROR INFO "note" Hl
               eq_refl Hne).
    by vm_compute.
Defined.
